(** * Connection I/O handler and poll-intent reconciliation (src/connection.c)

    A shallow embedding of [conn_fd_handler] and [conn_set_polling].
    The connection flags are an [unsigned int], modelled as a [Z] with the
    32-bit wrap-around of [~mask] written out.  The functions the file calls
    but does not define (handshake sub-handlers, application callbacks, the
    session shim, the connect probe, the upstream notification) are fields of
    an interface; every call the core makes to them is recorded, in order, in
    the list of calls the model returns. *)

From Stdlib Require Import ZArith List Bool Lia.
Import ListNotations.
Local Open Scope Z_scope.

(** ** Flag and event constants

    The enumerations [CO_FL_*] (types/connection.h) and [FD_POLL_*]
    (types/fd.h) are not part of connection.c: they are taken as the fields
    of an interface, and each theorem states what it needs of them. *)

Class Constants := {
  CO_FL_ERROR : Z;
  CO_FL_CONNECTED : Z;
  CO_FL_WAIT_L4_CONN : Z;
  CO_FL_WAIT_L6_CONN : Z;
  CO_FL_NOTIFY_SI : Z;
  CO_FL_SI_SEND_PROXY : Z;
  CO_FL_ACCEPT_PROXY : Z;
  CO_FL_HANDSHAKE : Z;
  CO_FL_INIT_SESS : Z;
  CO_FL_POLL_SOCK : Z;
  CO_FL_CURR_RD_ENA : Z;
  CO_FL_CURR_RD_POL : Z;
  CO_FL_CURR_WR_ENA : Z;
  CO_FL_CURR_WR_POL : Z;
  FD_POLL_IN : Z;
  FD_POLL_OUT : Z;
  FD_POLL_HUP : Z;
  FD_POLL_ERR : Z
}.

(** A flag made of exactly one bit. *)
Definition single_bit (z : Z) : bool := (0 <? z) && (z =? 2 ^ Z.log2 z).

(** The value fits an [unsigned int]. *)
Definition is_uint32 (z : Z) : Prop := 0 <= z < 2 ^ 32.

(** Conversion of an [int] to [unsigned int]. *)
Definition uint32 (z : Z) : Z := z mod 2 ^ 32.

(** The C truth value of [flags & mask]. *)
Definition flag_set (flags mask : Z) : bool := negb (Z.land flags mask =? 0).

(** ** Memory *)

Definition conn_ptr := nat.

(** [struct connection], restricted to the members connection.c reads. *)
Record connection := mkConnection {
  flags : Z;       (* unsigned int flags *)
  t_sock_fd : Z    (* t.sock.fd *)
}.

(** One slot of [fdtab]. *)
Record fdtab_entry := mkFdtabEntry {
  owner : option conn_ptr;   (* NULL is None *)
  ev : Z
}.

(** The memory the handler works on; [rest] is whatever else the callbacks
    keep (buffers, sessions, ...), opaque to the core. *)
Record mem {X : Type} := mkMem {
  fdtab : Z -> fdtab_entry;
  conns : conn_ptr -> connection;
  rest : X
}.
Arguments mem : clear implicits.
Arguments mkMem {X} _ _ _.

(** Calls made by the core, as they appear in its trace.  The six
    event-facility primitives act inside the event facility only; the
    core never reads their effect back. *)
Inductive call :=
| fd_poll_recv (fd : Z)
| fd_want_recv (fd : Z)
| fd_stop_recv (fd : Z)
| fd_poll_send (fd : Z)
| fd_want_send (fd : Z)
| fd_stop_send (fd : Z)
| call_conn_recv_proxy (c : conn_ptr) (flag : Z)
| call_conn_si_send_proxy (c : conn_ptr) (flag : Z)
| call_conn_sock_stop_both (c : conn_ptr)
| call_conn_session_complete (c : conn_ptr) (flag : Z)
| call_app_cb_recv (c : conn_ptr)
| call_app_cb_send (c : conn_ptr)
| call_tcp_connect_probe (c : conn_ptr)
| call_conn_notify_si (c : conn_ptr).

Section Memory.
Context {X : Type}.

Definition conn_flags (m : mem X) (c : conn_ptr) : Z := flags (conns m c).

Definition set_conn_flags (c : conn_ptr) (f : Z) (m : mem X) : mem X :=
  mkMem (fdtab m)
        (fun p => if Nat.eqb p c
                  then mkConnection f (t_sock_fd (conns m p))
                  else conns m p)
        (rest m).

Definition fd_ev (m : mem X) (fd : Z) : Z := ev (fdtab m fd).

Definition set_fd_ev (fd : Z) (e : Z) (m : mem X) : mem X :=
  mkMem (fun k => if Z.eqb k fd
                  then mkFdtabEntry (owner (fdtab m k)) e
                  else fdtab m k)
        (conns m)
        (rest m).

(** *** The monad of the core: memory passing plus the calls made *)

Definition M (A : Type) : Type := mem X -> A * mem X * list call.

Definition ret {A} (a : A) : M A := fun m => (a, m, []).

Definition bind {A B} (x : M A) (k : A -> M B) : M B :=
  fun m =>
    let '(a, m1, t1) := x m in
    let '(b, m2, t2) := k a m1 in
    (b, m2, t1 ++ t2).

Definition read_flags (c : conn_ptr) : M Z := fun m => (conn_flags m c, m, []).
Definition write_flags (c : conn_ptr) (f : Z) : M unit :=
  fun m => (tt, set_conn_flags c f m, []).
Definition read_sock_fd (c : conn_ptr) : M Z :=
  fun m => (t_sock_fd (conns m c), m, []).
Definition read_ev (fd : Z) : M Z := fun m => (fd_ev m fd, m, []).
Definition write_ev (fd : Z) (e : Z) : M unit :=
  fun m => (tt, set_fd_ev fd e m, []).

(** A call to an event-facility primitive. *)
Definition emit (e : call) : M unit := fun m => (tt, m, [e]).

(** A call to an external function [f], recorded as [e]. *)
Definition extcall {A} (e : call) (f : mem X -> A * mem X) : M A :=
  fun m => let '(a, m1) := f m in (a, m1, [e]).

Definition value {A} (r : A * mem X * list call) : A := fst (fst r).
Definition final {A} (r : A * mem X * list call) : mem X := snd (fst r).
Definition calls {A} (r : A * mem X * list call) : list call := snd r.
End Memory.

Declare Scope conn_scope.
Delimit Scope conn_scope with conn.
Notation "x <- a ;; b" := (bind a (fun x => b))
  (at level 61, a at next level, right associativity) : conn_scope.
Notation "a ;;; b" := (bind a (fun _ => b))
  (at level 61, right associativity) : conn_scope.

(** ** conn_set_polling (connection.c, lines 123-147) *)

Section Reconciler.
Context {K : Constants} {X : Type}.
Local Open Scope conn_scope.

Definition RD_PAIR : Z := Z.lor CO_FL_CURR_RD_ENA CO_FL_CURR_RD_POL.
Definition WR_PAIR : Z := Z.lor CO_FL_CURR_WR_ENA CO_FL_CURR_WR_POL.

(** [CO_FL_CURR_WR_POL|CO_FL_CURR_WR_ENA|CO_FL_CURR_RD_POL|CO_FL_CURR_RD_ENA] *)
Definition CURR_MASK : Z :=
  Z.lor (Z.lor (Z.lor CO_FL_CURR_WR_POL CO_FL_CURR_WR_ENA) CO_FL_CURR_RD_POL)
        CO_FL_CURR_RD_ENA.

Definition conn_set_polling (c : conn_ptr) (new : Z) : M (X:=X) unit :=
  old <- read_flags c ;;
  fd <- read_sock_fd c ;;
  (* update read status if needed *)
  (if negb (Z.land old RD_PAIR =? RD_PAIR) && (Z.land new RD_PAIR =? RD_PAIR)
   then emit (fd_poll_recv fd)
   else if negb (flag_set old CO_FL_CURR_RD_ENA) && flag_set new CO_FL_CURR_RD_ENA
   then emit (fd_want_recv fd)
   else if flag_set old CO_FL_CURR_RD_ENA && negb (flag_set new CO_FL_CURR_RD_ENA)
   then emit (fd_stop_recv fd)
   else ret tt) ;;;
  (* update write status if needed *)
  (if negb (Z.land old WR_PAIR =? WR_PAIR) && (Z.land new WR_PAIR =? WR_PAIR)
   then emit (fd_poll_send fd)
   else if negb (flag_set old CO_FL_CURR_WR_ENA) && flag_set new CO_FL_CURR_WR_ENA
   then emit (fd_want_send fd)
   else if flag_set old CO_FL_CURR_WR_ENA && negb (flag_set new CO_FL_CURR_WR_ENA)
   then emit (fd_stop_send fd)
   else ret tt) ;;;
  f1 <- read_flags c ;;
  write_flags c (Z.land f1 (uint32 (Z.lnot CURR_MASK))) ;;;
  f2 <- read_flags c ;;
  write_flags c (Z.lor f2 (Z.land new CURR_MASK)).

(** The value lines 145-146 leave in [c->flags], from the value before. *)
Definition committed_flags (f new : Z) : Z :=
  Z.lor (Z.land f (uint32 (Z.lnot CURR_MASK))) (Z.land new CURR_MASK).
End Reconciler.

(** ** Functions called by the handler and defined elsewhere

    Each takes the memory and gives its result and the memory it leaves.
    [int] results are [Z]; [void] functions give the memory only. *)

Class Externals (X : Type) := {
  conn_recv_proxy : conn_ptr -> Z -> mem X -> Z * mem X;
  conn_si_send_proxy : conn_ptr -> Z -> mem X -> Z * mem X;
  __conn_sock_stop_both : conn_ptr -> mem X -> mem X;
  conn_session_complete : conn_ptr -> Z -> mem X -> Z * mem X;
  app_cb_recv : conn_ptr -> mem X -> mem X;      (* conn->app_cb->recv *)
  app_cb_send : conn_ptr -> mem X -> mem X;      (* conn->app_cb->send *)
  tcp_connect_probe : conn_ptr -> mem X -> Z * mem X;
  conn_notify_si : conn_ptr -> mem X -> mem X;
  (* the interest bits the upper layers currently ask for, read off the
     connection flags; used by conn_cond_update_polling *)
  desired_polling : Z -> Z
}.

(** ** conn_fd_handler (connection.c, lines 24-116) *)

(** Where a stage of the handler hands control. *)
Inductive stage_exit :=
| exit_return       (* return 0 *)
| exit_leave        (* goto leave, or falling into the label *)
| exit_handshake.   (* goto process_handshake *)

(** How the [while] loop of lines 38-49 is left. *)
Inductive loop_exit :=
| loop_done         (* the loop condition is false *)
| loop_leave.       (* goto leave from inside the body *)

(** Result of one run of the loop body. *)
Inductive body_exit :=
| body_continue
| body_leave.

Section Handler.
Context {K : Constants} {X : Type} {E : Externals X}.
Local Open Scope conn_scope.

Definition void (e : call) (f : mem X -> mem X) : M (X:=X) unit :=
  extcall e (fun m => (tt, f m)).

Definition RECV_EVENTS : Z := Z.lor (Z.lor FD_POLL_IN FD_POLL_HUP) FD_POLL_ERR.
Definition SEND_EVENTS : Z := Z.lor FD_POLL_OUT FD_POLL_ERR.
Definition ALL_EVENTS : Z :=
  Z.lor (Z.lor (Z.lor FD_POLL_IN FD_POLL_OUT) FD_POLL_HUP) FD_POLL_ERR.
Definition ERROR_INIT_SESS : Z := Z.lor CO_FL_ERROR CO_FL_INIT_SESS.
Definition ESTABLISHED_MASK : Z :=
  Z.lor (Z.lor CO_FL_WAIT_L4_CONN CO_FL_WAIT_L6_CONN) CO_FL_CONNECTED.

(** Modelled from the spec: conn_cond_update_polling is an inline of
    proto/connection.h, absent from src/.  Spec 4.5, step 9: "Call the
    reconciler with the connection's current desired interests." *)
Definition conn_cond_update_polling (c : conn_ptr) : M (X:=X) unit :=
  f <- read_flags c ;;
  conn_set_polling c (desired_polling f).

(** Body of the handshake loop, lines 39-48. *)
Definition handshake_body (c : conn_ptr) : M (X:=X) body_exit :=
  f <- read_flags c ;;
  if flag_set f CO_FL_ERROR then ret body_leave else
  f <- read_flags c ;;
  failed <- (if flag_set f CO_FL_ACCEPT_PROXY
             then r <- extcall (call_conn_recv_proxy c CO_FL_ACCEPT_PROXY)
                               (conn_recv_proxy c CO_FL_ACCEPT_PROXY) ;;
                  ret (r =? 0)
             else ret false) ;;
  if failed : bool then ret body_leave else
  f <- read_flags c ;;
  failed <- (if flag_set f CO_FL_SI_SEND_PROXY
             then r <- extcall (call_conn_si_send_proxy c CO_FL_SI_SEND_PROXY)
                               (conn_si_send_proxy c CO_FL_SI_SEND_PROXY) ;;
                  ret (r =? 0)
             else ret false) ;;
  if failed : bool then ret body_leave else ret body_continue.

(** The loop of lines 38-49; one unit of fuel per test of its condition. *)
Fixpoint handshake_loop (fuel : nat) (c : conn_ptr) (m : mem X)
  : option (loop_exit * mem X * list call) :=
  match fuel with
  | O => None
  | S n =>
      if flag_set (conn_flags m c) CO_FL_HANDSHAKE then
        let '(b, m1, t1) := handshake_body c m in
        match b with
        | body_leave => Some (loop_leave, m1, t1)
        | body_continue =>
            match handshake_loop n c m1 with
            | None => None
            | Some (x, m2, t2) => Some (x, m2, t1 ++ t2)
            end
        end
      else Some (loop_done, m, [])
  end.

(** Data phase, lines 63-93. *)
Definition data_phase (c : conn_ptr) (fd : Z) : M (X:=X) stage_exit :=
  e <- read_ev fd ;;
  (if flag_set e RECV_EVENTS
   then void (call_app_cb_recv c) (app_cb_recv c) else ret tt) ;;;
  f <- read_flags c ;;
  if flag_set f CO_FL_ERROR then ret exit_leave else
  if flag_set f CO_FL_HANDSHAKE then ret exit_handshake else
  e <- read_ev fd ;;
  (if flag_set e SEND_EVENTS
   then void (call_app_cb_send c) (app_cb_send c) else ret tt) ;;;
  f <- read_flags c ;;
  if flag_set f CO_FL_ERROR then ret exit_leave else
  if flag_set f CO_FL_HANDSHAKE then ret exit_handshake else
  if flag_set f CO_FL_WAIT_L4_CONN then
    r <- extcall (call_tcp_connect_probe c) (tcp_connect_probe c) ;;
    if r =? 0 then ret exit_leave else ret exit_leave
  else ret exit_leave.

(** Lines 51-93: what follows the handshake loop once it is done. *)
Definition after_handshake (c : conn_ptr) (fd : Z) : M (X:=X) stage_exit :=
  f <- read_flags c ;;
  (if negb (flag_set f CO_FL_POLL_SOCK)
   then void (call_conn_sock_stop_both c) (__conn_sock_stop_both c)
   else ret tt) ;;;
  f <- read_flags c ;;
  if flag_set f CO_FL_INIT_SESS then
    r <- extcall (call_conn_session_complete c CO_FL_INIT_SESS)
                 (conn_session_complete c CO_FL_INIT_SESS) ;;
    if r <? 0 then ret exit_return else data_phase c fd
  else data_phase c fd.

(** The [leave] label, lines 95-115.  The slot [ev] is cleared with the
    [int] complement of the mask; the conjunction keeps only bits of the
    slot, so narrowing back to the slot's type changes nothing. *)
Definition leave (c : conn_ptr) (fd : Z) : M (X:=X) Z :=
  f <- read_flags c ;;
  if Z.land f ERROR_INIT_SESS =? ERROR_INIT_SESS then
    f <- read_flags c ;;
    write_flags c (Z.lor f CO_FL_ERROR) ;;;
    extcall (call_conn_session_complete c CO_FL_INIT_SESS)
            (conn_session_complete c CO_FL_INIT_SESS) ;;;
    ret 0
  else
    f <- read_flags c ;;
    (if flag_set f CO_FL_NOTIFY_SI
     then void (call_conn_notify_si c) (conn_notify_si c) else ret tt) ;;;
    f <- read_flags c ;;
    (if negb (flag_set f ESTABLISHED_MASK)
     then write_flags c (Z.lor f CO_FL_CONNECTED) else ret tt) ;;;
    e <- read_ev fd ;;
    write_ev fd (Z.land e (Z.lnot ALL_EVENTS)) ;;;
    conn_cond_update_polling c ;;;
    ret 0.

(** Puts the calls made so far in front of those of a later stage. *)
Definition after {A} (t : list call) (r : A * mem X * list call)
  : A * mem X * list call :=
  (value r, final r, t ++ calls r).

(** The handler from the label [process_handshake] on; one unit of fuel
    per arrival at the label. *)
Fixpoint process_handshake (fuel : nat) (c : conn_ptr) (fd : Z) (m : mem X)
  : option (Z * mem X * list call) :=
  match fuel with
  | O => None
  | S n =>
      match handshake_loop fuel c m with
      | None => None
      | Some (loop_leave, m1, t1) => Some (after t1 (leave c fd m1))
      | Some (loop_done, m1, t1) =>
          let '(x, m2, t2) := after_handshake c fd m1 in
          match x with
          | exit_return => Some (0, m2, t1 ++ t2)
          | exit_leave => Some (after (t1 ++ t2) (leave c fd m2))
          | exit_handshake =>
              option_map (after (t1 ++ t2)) (process_handshake n c fd m2)
          end
      end
  end.

Definition conn_fd_handler (fuel : nat) (fd : Z) (m : mem X)
  : option (Z * mem X * list call) :=
  match owner (fdtab m fd) with
  | None => Some (0, m, [])
  | Some conn => process_handshake fuel conn fd m
  end.

(** *** Sequences of readiness cycles *)

(** Modelled from the spec: the event loop is not in src/.  Spec 4.4:
    the handler is "given the descriptor's latched event mask"; a cycle
    latches the reported events into the slot and runs the handler. *)
Definition readiness_cycle (fuel : nat) (fd : Z) (events : Z) (m : mem X)
  : option (Z * mem X * list call) :=
  conn_fd_handler fuel fd (set_fd_ev fd (Z.lor (fd_ev m fd) events) m).

(** The memories left by successive cycles on [fd]. *)
Fixpoint run_cycles (fuel : nat) (fd : Z) (edges : list Z) (m : mem X)
  : option (list (mem X)) :=
  match edges with
  | [] => Some []
  | e :: rest_edges =>
      match readiness_cycle fuel fd e m with
      | None => None
      | Some r =>
          option_map (cons (final r)) (run_cycles fuel fd rest_edges (final r))
      end
  end.

Definition connected (c : conn_ptr) (m : mem X) : bool :=
  flag_set (conn_flags m c) CO_FL_CONNECTED.

(** *** Memories at the points of a cycle the theorems speak of *)

(** After lines 63-64. *)
Definition received (c : conn_ptr) (fd : Z) (m : mem X) : mem X :=
  if flag_set (fd_ev m fd) RECV_EVENTS then app_cb_recv c m else m.

(** After lines 75-76, from the memory the receive half left. *)
Definition sent (c : conn_ptr) (fd : Z) (m : mem X) : mem X :=
  if flag_set (fd_ev m fd) SEND_EVENTS then app_cb_send c m else m.

(** After lines 103-104. *)
Definition notified (c : conn_ptr) (m : mem X) : mem X :=
  if flag_set (conn_flags m c) CO_FL_NOTIFY_SI then conn_notify_si c m else m.

(** After lines 107-108, from the memory the notification left. *)
Definition established (c : conn_ptr) (m : mem X) : mem X :=
  if negb (flag_set (conn_flags m c) ESTABLISHED_MASK)
  then set_conn_flags c (Z.lor (conn_flags m c) CO_FL_CONNECTED) m
  else m.

(** After line 111. *)
Definition events_removed (fd : Z) (m : mem X) : mem X :=
  set_fd_ev fd (Z.land (fd_ev m fd) (Z.lnot ALL_EVENTS)) m.

(** The memory handed to the session shim on line 99. *)
Definition error_latched (c : conn_ptr) (m : mem X) : mem X :=
  set_conn_flags c (Z.lor (conn_flags m c) CO_FL_ERROR) m.

(** *** The three returns of the handler, told apart by what they leave *)

(** Line 115: the four event bits are clear in the slot. *)
Definition events_cleared (fd : Z) (r : Z * mem X * list call) : Prop :=
  Z.land (fd_ev (final r) fd) ALL_EVENTS = 0.

(** Line 61: the last thing done was a call to the session shim, made
    with INIT_SESS pending, that returned a negative value. *)
Definition session_failed (c : conn_ptr) (r : Z * mem X * list call) : Prop :=
  exists m0 t,
    flag_set (conn_flags m0 c) CO_FL_INIT_SESS = true /\
    fst (conn_session_complete c CO_FL_INIT_SESS m0) < 0 /\
    final r = snd (conn_session_complete c CO_FL_INIT_SESS m0) /\
    calls r = t ++ [call_conn_session_complete c CO_FL_INIT_SESS].

(** Line 100: the last thing done was the call to the session shim made
    by the [leave] label with ERROR and INIT_SESS both set. *)
Definition session_aborted (c : conn_ptr) (r : Z * mem X * list call) : Prop :=
  exists m0 t,
    Z.land (conn_flags m0 c) ERROR_INIT_SESS = ERROR_INIT_SESS /\
    final r = snd (conn_session_complete c CO_FL_INIT_SESS (error_latched c m0)) /\
    calls r = t ++ [call_conn_session_complete c CO_FL_INIT_SESS].

(** The functions called by the core leave the CONNECTED bit of [c] as it
    is, whichever connection they are called on. *)
Definition externals_keep_connected (c : conn_ptr) : Prop :=
  (forall p m, connected c (snd (conn_recv_proxy p CO_FL_ACCEPT_PROXY m))
               = connected c m) /\
  (forall p m, connected c (snd (conn_si_send_proxy p CO_FL_SI_SEND_PROXY m))
               = connected c m) /\
  (forall p m, connected c (__conn_sock_stop_both p m) = connected c m) /\
  (forall p m, connected c (snd (conn_session_complete p CO_FL_INIT_SESS m))
               = connected c m) /\
  (forall p m, connected c (app_cb_recv p m) = connected c m) /\
  (forall p m, connected c (app_cb_send p m) = connected c m) /\
  (forall p m, connected c (snd (tcp_connect_probe p m)) = connected c m) /\
  (forall p m, connected c (conn_notify_si p m) = connected c m).
End Handler.

(** Number of places where a sequence of bits, started at [b], goes from
    false to true. *)
Fixpoint rising_edges (b : bool) (l : list bool) : nat :=
  match l with
  | [] => O
  | x :: r => ((if negb b && x then 1 else 0) + rising_edges x r)%nat
  end.

(** ** The reconciler as the specification words it

    Per direction, from the (ENA, POL) pair before and the pair asked for:
    poll when the pair becomes 11 from anything else, want when ENA goes
    0 to 1 and the pair does not become 11, stop when ENA goes 1 to 0,
    nothing otherwise. *)

Inductive interest_edge := edge_poll | edge_want | edge_stop | edge_none.

Definition spec_interest_edge (old_ena old_pol new_ena new_pol : bool)
  : interest_edge :=
  let becomes_11 := (new_ena && new_pol) && negb (old_ena && old_pol) in
  let ena_rises := negb old_ena && new_ena in
  let ena_falls := old_ena && negb new_ena in
  if becomes_11 then edge_poll
  else if ena_rises && negb (new_ena && new_pol) then edge_want
  else if ena_falls then edge_stop
  else edge_none.

Definition spec_recv_calls (fd : Z) (e : interest_edge) : list call :=
  match e with
  | edge_poll => [fd_poll_recv fd]
  | edge_want => [fd_want_recv fd]
  | edge_stop => [fd_stop_recv fd]
  | edge_none => []
  end.

Definition spec_send_calls (fd : Z) (e : interest_edge) : list call :=
  match e with
  | edge_poll => [fd_poll_send fd]
  | edge_want => [fd_want_send fd]
  | edge_stop => [fd_stop_send fd]
  | edge_none => []
  end.

(** Calls of the data phase and of what precedes it after the loop. *)
Definition is_data_call (e : call) : bool :=
  match e with
  | call_app_cb_recv _ | call_app_cb_send _ | call_tcp_connect_probe _
  | call_conn_sock_stop_both _ => true
  | _ => false
  end.

(** Calls to the event facility. *)
Definition is_fd_call (e : call) : bool :=
  match e with
  | fd_poll_recv _ | fd_want_recv _ | fd_stop_recv _
  | fd_poll_send _ | fd_want_send _ | fd_stop_send _ => true
  | _ => false
  end.

(** Calls to the two handshake sub-handlers. *)
Definition is_handshake_call (e : call) : bool :=
  match e with
  | call_conn_recv_proxy _ _ | call_conn_si_send_proxy _ _ => true
  | _ => false
  end.

(** ** A concrete setting, used to run the model

    One assignment of the constants in which every flag is a bit of its own,
    [CO_FL_HANDSHAKE] groups the two handshake kinds and [CO_FL_POLL_SOCK]
    groups the handshake and the two wait flags. *)

Definition sample_constants : Constants := {|
  CO_FL_ERROR := 0x1;
  CO_FL_CONNECTED := 0x2;
  CO_FL_WAIT_L4_CONN := 0x4;
  CO_FL_WAIT_L6_CONN := 0x8;
  CO_FL_NOTIFY_SI := 0x10;
  CO_FL_SI_SEND_PROXY := 0x20;
  CO_FL_ACCEPT_PROXY := 0x80;
  CO_FL_HANDSHAKE := 0xA0;
  CO_FL_INIT_SESS := 0x800;
  CO_FL_POLL_SOCK := 0xAC;
  CO_FL_CURR_RD_ENA := 0x100000;
  CO_FL_CURR_RD_POL := 0x200000;
  CO_FL_CURR_WR_ENA := 0x400000;
  CO_FL_CURR_WR_POL := 0x800000;
  FD_POLL_IN := 0x1;
  FD_POLL_OUT := 0x4;
  FD_POLL_ERR := 0x8;
  FD_POLL_HUP := 0x10
|}.

(** A memory with one connection, number 0, on descriptor 7; every other
    descriptor has no owner. *)
Definition sample_mem (conn_flags0 : Z) (ev0 : Z) : mem unit :=
  mkMem (fun k => if k =? 7 then mkFdtabEntry (Some O) ev0
                  else mkFdtabEntry None 0)
        (fun _ => mkConnection conn_flags0 7)
        tt.

(** Clears [mask] in the flags of [c]. *)
Definition clear_flags {X} (c : conn_ptr) (mask : Z) (m : mem X) : mem X :=
  set_conn_flags c (Z.land (conn_flags m c) (uint32 (Z.lnot mask))) m.

(** Sets [mask] in the flags of [c]. *)
Definition raise_flags {X} (c : conn_ptr) (mask : Z) (m : mem X) : mem X :=
  set_conn_flags c (Z.lor (conn_flags m c) mask) m.

(** Well-behaved collaborators: each sub-handler clears its bit and reports
    done, the session shim clears its bit and succeeds, the probe confirms
    the connection, the callbacks do nothing, no interest is asked for. *)
Definition quiet_externals : Externals unit := {|
  conn_recv_proxy := fun c flag m => (1, clear_flags c flag m);
  conn_si_send_proxy := fun c flag m => (1, clear_flags c flag m);
  __conn_sock_stop_both := fun _ m => m;
  conn_session_complete := fun c flag m => (0, clear_flags c flag m);
  app_cb_recv := fun _ m => m;
  app_cb_send := fun _ m => m;
  tcp_connect_probe := fun c m => (1, clear_flags c 0x4 m);
  conn_notify_si := fun _ m => m;
  desired_polling := fun _ => 0
|}.

(** As [quiet_externals], but the session constructor fails: the shim
    clears its bit and returns a negative value. *)
Definition failing_session_externals : Externals unit := {|
  conn_recv_proxy := fun c flag m => (1, clear_flags c flag m);
  conn_si_send_proxy := fun c flag m => (1, clear_flags c flag m);
  __conn_sock_stop_both := fun _ m => m;
  conn_session_complete := fun c flag m => (-1, clear_flags c flag m);
  app_cb_recv := fun _ m => m;
  app_cb_send := fun _ m => m;
  tcp_connect_probe := fun c m => (1, clear_flags c 0x4 m);
  conn_notify_si := fun _ m => m;
  desired_polling := fun _ => 0
|}.

(** As [quiet_externals], but the PROXY header parser latches the error
    flag, keeps its bit pending and still reports done. *)
Definition late_error_externals : Externals unit := {|
  conn_recv_proxy := fun c _ m => (1, raise_flags c 0x1 m);
  conn_si_send_proxy := fun c flag m => (1, clear_flags c flag m);
  __conn_sock_stop_both := fun _ m => m;
  conn_session_complete := fun c flag m => (0, clear_flags c flag m);
  app_cb_recv := fun _ m => m;
  app_cb_send := fun _ m => m;
  tcp_connect_probe := fun c m => (1, clear_flags c 0x4 m);
  conn_notify_si := fun _ m => m;
  desired_polling := fun _ => 0
|}.

(** As [quiet_externals], but the receive callback drops an established
    connection back to waiting for the lower layer: it clears CONNECTED and
    raises WAIT_L6_CONN when CONNECTED is set, and clears WAIT_L6_CONN
    otherwise. *)
Definition reconnecting_externals : Externals unit := {|
  conn_recv_proxy := fun c flag m => (1, clear_flags c flag m);
  conn_si_send_proxy := fun c flag m => (1, clear_flags c flag m);
  __conn_sock_stop_both := fun _ m => m;
  conn_session_complete := fun c flag m => (0, clear_flags c flag m);
  app_cb_recv := fun c m =>
    if flag_set (conn_flags m c) 0x2
    then raise_flags c 0x8 (clear_flags c 0x2 m)
    else clear_flags c 0x8 m;
  app_cb_send := fun _ m => m;
  tcp_connect_probe := fun c m => (1, clear_flags c 0x4 m);
  conn_notify_si := fun _ m => m;
  desired_polling := fun _ => 0
|}.

(** ** Definitions for the properties of sequences and of whole cycles *)

(** The descriptor an event-facility call is made on. *)
Definition call_fd (e : call) : option Z :=
  match e with
  | fd_poll_recv k | fd_want_recv k | fd_stop_recv k
  | fd_poll_send k | fd_want_send k | fd_stop_send k => Some k
  | _ => None
  end.

(** Whether the event facility has receiving enabled on [fd] once it has
    been told [e]: want and poll enable, stop disables. *)
Definition recv_enabled_after (fd : Z) (enabled : bool) (e : call) : bool :=
  match e with
  | fd_want_recv k | fd_poll_recv k => if k =? fd then true else enabled
  | fd_stop_recv k => if k =? fd then false else enabled
  | _ => enabled
  end.

(** The same for sending. *)
Definition send_enabled_after (fd : Z) (enabled : bool) (e : call) : bool :=
  match e with
  | fd_want_send k | fd_poll_send k => if k =? fd then true else enabled
  | fd_stop_send k => if k =? fd then false else enabled
  | _ => enabled
  end.

(** An event-facility call made on the descriptor of [c] as [m] has it. *)
Definition on_sock_fd {X : Type} (c : conn_ptr) (m : mem X) (e : call) : Prop :=
  is_fd_call e = true /\ call_fd e = Some (t_sock_fd (conns m c)).

(** Calls to the upstream notification. *)
Definition is_notify_call (e : call) : bool :=
  match e with
  | call_conn_notify_si _ => true
  | _ => false
  end.

(** A call that is neither to the event facility nor to the upstream
    notification. *)
Definition is_io_call (e : call) : Prop :=
  is_fd_call e = false /\ is_notify_call e = false.

(** The shape of the calls of a run: sub-handlers, session shim and I/O
    callbacks first, then at most one upstream notification, then at most
    two event-facility calls on the descriptor of the connection. *)
Definition fd_calls_last {X : Type} (c : conn_ptr)
           (r : Z * mem X * list call) : Prop :=
  exists t n u,
    calls r = t ++ n ++ u /\
    Forall is_io_call t /\
    (n = [] \/ n = [call_conn_notify_si c]) /\
    Forall (on_sock_fd c (final r)) u /\
    (length u <= 2)%nat.

Section Sequences.
Context {K : Constants} {X : Type}.
Local Open Scope conn_scope.

(** Successive calls [conn_set_polling c new] for the values of a list. *)
Fixpoint conn_set_polling_seq (c : conn_ptr) (news : list Z) : M (X:=X) unit :=
  match news with
  | [] => ret tt
  | new :: more => conn_set_polling c new ;;; conn_set_polling_seq c more
  end.
End Sequences.

Section Contracts.
Context {K : Constants} {X : Type} {E : Externals X}.

(** What the comment of lines 32-37 and the loop expect of the two
    sub-handlers on [c]: one that reports done has removed its own bit, and
    the sender of the PROXY header does not ask for the parser again. *)
Definition handshake_contract (c : conn_ptr) : Prop :=
  (forall m, fst (conn_recv_proxy c CO_FL_ACCEPT_PROXY m) <> 0 ->
             flag_set (conn_flags (snd (conn_recv_proxy c CO_FL_ACCEPT_PROXY m)) c)
                      CO_FL_ACCEPT_PROXY = false) /\
  (forall m, fst (conn_si_send_proxy c CO_FL_SI_SEND_PROXY m) <> 0 ->
             flag_set (conn_flags (snd (conn_si_send_proxy c CO_FL_SI_SEND_PROXY m)) c)
                      CO_FL_SI_SEND_PROXY = false) /\
  (forall m, flag_set (conn_flags m c) CO_FL_ACCEPT_PROXY = false ->
             flag_set (conn_flags (snd (conn_si_send_proxy c CO_FL_SI_SEND_PROXY m)) c)
                      CO_FL_ACCEPT_PROXY = false).

(** The functions called between the loop and the second HANDSHAKE test of
    the data phase do not start a handshake on [c]. *)
Definition no_handshake_restart (c : conn_ptr) : Prop :=
  let quiet (f : mem X -> mem X) :=
    forall m, flag_set (conn_flags m c) CO_FL_HANDSHAKE = false ->
              flag_set (conn_flags (f m) c) CO_FL_HANDSHAKE = false in
  quiet (__conn_sock_stop_both c) /\
  quiet (fun m => snd (conn_session_complete c CO_FL_INIT_SESS m)) /\
  quiet (app_cb_recv c) /\
  quiet (app_cb_send c).

(** The functions called by the core do not clear the flag [b] of [c],
    whichever connection they are called on. *)
Definition externals_keep_flag_set (b : Z) (c : conn_ptr) : Prop :=
  let kept (f : mem X -> mem X) :=
    forall m, flag_set (conn_flags m c) b = true ->
              flag_set (conn_flags (f m) c) b = true in
  (forall p, kept (fun m => snd (conn_recv_proxy p CO_FL_ACCEPT_PROXY m))) /\
  (forall p, kept (fun m => snd (conn_si_send_proxy p CO_FL_SI_SEND_PROXY m))) /\
  (forall p, kept (__conn_sock_stop_both p)) /\
  (forall p, kept (fun m => snd (conn_session_complete p CO_FL_INIT_SESS m))) /\
  (forall p, kept (app_cb_recv p)) /\
  (forall p, kept (app_cb_send p)) /\
  (forall p, kept (fun m => snd (tcp_connect_probe p m))) /\
  (forall p, kept (conn_notify_si p)).

(** The functions the handler calls on [c] leave the flag [bit] of [c] and
    the descriptor recorded in [c] as they are. *)
Definition externals_keep_interest (bit : Z) (c : conn_ptr) : Prop :=
  let kept (f : mem X -> mem X) :=
    forall m, flag_set (conn_flags (f m) c) bit = flag_set (conn_flags m c) bit
              /\ t_sock_fd (conns (f m) c) = t_sock_fd (conns m c) in
  kept (fun m => snd (conn_recv_proxy c CO_FL_ACCEPT_PROXY m)) /\
  kept (fun m => snd (conn_si_send_proxy c CO_FL_SI_SEND_PROXY m)) /\
  kept (__conn_sock_stop_both c) /\
  kept (fun m => snd (conn_session_complete c CO_FL_INIT_SESS m)) /\
  kept (app_cb_recv c) /\
  kept (app_cb_send c) /\
  kept (fun m => snd (tcp_connect_probe c m)) /\
  kept (conn_notify_si c).

(** The flag [bit] of [c] and the descriptor of [c] are the same in [m1]
    as in [m]. *)
Definition interest_kept (bit : Z) (c : conn_ptr) (m m1 : mem X) : Prop :=
  flag_set (conn_flags m1 c) bit = flag_set (conn_flags m c) bit /\
  t_sock_fd (conns m1 c) = t_sock_fd (conns m c).

(** The flag [bit] of [c] after the run [r] started from [m] is what
    replaying the calls of [r] with [step] makes of the flag in [m]. *)
Definition interest_mirrored (bit : Z) (step : Z -> bool -> call -> bool)
           (c : conn_ptr) (m : mem X) {A} (r : A * mem X * list call) : Prop :=
  flag_set (conn_flags (final r) c) bit
  = fold_left (step (t_sock_fd (conns m c))) (calls r)
              (flag_set (conn_flags m c) bit) /\
  t_sock_fd (conns (final r) c) = t_sock_fd (conns m c).
End Contracts.

(** * Theorems *)

(** ** Bit arithmetic on flags *)

Lemma single_bit_pow2 (z : Z) :
  single_bit z = true -> exists n, 0 <= n /\ z = 2 ^ n.
Proof.
  unfold single_bit. intros H.
  apply andb_true_iff in H. destruct H as [Hpos Heq].
  apply Z.ltb_lt in Hpos. apply Z.eqb_eq in Heq.
  exists (Z.log2 z). split; [apply Z.log2_nonneg | exact Heq].
Qed.

Lemma land_pow2 (f n : Z) :
  0 <= n -> Z.land f (2 ^ n) = if Z.testbit f n then 2 ^ n else 0.
Proof.
  intros Hn. apply Z.bits_inj'. intros i Hi.
  rewrite Z.land_spec, Z.pow2_bits_eqb by assumption.
  destruct (Z.eqb_spec n i) as [->|Hne].
  - destruct (Z.testbit f i); simpl.
    + rewrite Z.pow2_bits_eqb, Z.eqb_refl by assumption. reflexivity.
    + rewrite Z.bits_0. reflexivity.
  - rewrite andb_false_r.
    destruct (Z.testbit f n).
    + rewrite Z.pow2_bits_eqb by assumption.
      symmetry. apply Z.eqb_neq. exact Hne.
    + rewrite Z.bits_0. reflexivity.
Qed.

Lemma flag_set_single (f b : Z) :
  single_bit b = true -> flag_set f b = (Z.land f b =? b).
Proof.
  intros Hb. destruct (single_bit_pow2 b Hb) as [n [Hn ->]].
  unfold flag_set. rewrite land_pow2 by assumption.
  assert (0 < 2 ^ n) by (apply Z.pow_pos_nonneg; lia).
  destruct (Z.testbit f n).
  - rewrite Z.eqb_refl. destruct (Z.eqb_spec (2 ^ n) 0); [lia | reflexivity].
  - rewrite Z.eqb_refl. destruct (Z.eqb_spec 0 (2 ^ n)); [lia | reflexivity].
Qed.

Lemma land_lor_covers (f a b : Z) :
  Z.land f (Z.lor a b) = Z.lor a b <-> Z.land f a = a /\ Z.land f b = b.
Proof.
  split.
  - intros H. split; apply Z.bits_inj'; intros i Hi;
      apply (f_equal (fun z => Z.testbit z i)) in H;
      rewrite Z.land_spec, Z.lor_spec in H; rewrite Z.land_spec;
      destruct (Z.testbit f i), (Z.testbit a i), (Z.testbit b i);
      simpl in *; congruence.
  - intros [Ha Hb]. rewrite Z.land_lor_distr_r, Ha, Hb. reflexivity.
Qed.

Lemma pair_test (f a b : Z) :
  single_bit a = true -> single_bit b = true ->
  (Z.land f (Z.lor a b) =? Z.lor a b) = flag_set f a && flag_set f b.
Proof.
  intros Ha Hb. rewrite (flag_set_single f a Ha), (flag_set_single f b Hb).
  destruct (Z.eqb_spec (Z.land f (Z.lor a b)) (Z.lor a b)) as [H|H].
  - apply land_lor_covers in H. destruct H as [-> ->].
    rewrite !Z.eqb_refl. reflexivity.
  - symmetry. apply andb_false_iff.
    destruct (Z.eqb_spec (Z.land f a) a) as [H1|H1]; [|now left].
    destruct (Z.eqb_spec (Z.land f b) b) as [H2|H2]; [|now right].
    exfalso. apply H. apply land_lor_covers. now split.
Qed.

Lemma testbit_uint32 (z i : Z) :
  Z.testbit (uint32 z) i = (i <? 32) && Z.testbit z i.
Proof. unfold uint32. apply Z.testbit_mod_pow2. lia. Qed.

Lemma uint32_high_bits (f i : Z) :
  is_uint32 f -> 32 <= i -> Z.testbit f i = false.
Proof.
  intros Hf Hi.
  rewrite <- (Z.mod_small f (2 ^ 32)) by exact Hf.
  apply Z.mod_pow2_bits_high. lia.
Qed.

(** Equality of two bitwise expressions, bit by bit. *)
Ltac bitwise :=
  apply Z.bits_inj'; intros ?i ?Hi;
  repeat rewrite ?Z.land_spec, ?Z.lor_spec, ?testbit_uint32, ?Z.lnot_spec
    by assumption;
  repeat match goal with
         | |- context [Z.testbit ?x ?i] => destruct (Z.testbit x i)
         end;
  try reflexivity.

(** ** Reads after writes *)

Section MemoryFacts.
Context {X : Type}.
Implicit Types (m : mem X) (c p : conn_ptr).

Lemma conn_flags_set m c f : conn_flags (set_conn_flags c f m) c = f.
Proof. unfold conn_flags, set_conn_flags. simpl. now rewrite Nat.eqb_refl. Qed.

Lemma conn_flags_set_other m c p f :
  p <> c -> conn_flags (set_conn_flags c f m) p = conn_flags m p.
Proof.
  intros Hp. unfold conn_flags, set_conn_flags. simpl.
  destruct (Nat.eqb_spec p c); [contradiction | reflexivity].
Qed.

Lemma conns_set_other m c p f :
  p <> c -> conns (set_conn_flags c f m) p = conns m p.
Proof.
  intros Hp. unfold set_conn_flags. simpl.
  destruct (Nat.eqb_spec p c); [contradiction | reflexivity].
Qed.

Lemma sock_fd_set m c p f :
  t_sock_fd (conns (set_conn_flags c f m) p) = t_sock_fd (conns m p).
Proof. unfold set_conn_flags. simpl. now destruct (Nat.eqb p c). Qed.

Lemma fd_ev_set m fd e : fd_ev (set_fd_ev fd e m) fd = e.
Proof. unfold fd_ev, set_fd_ev. simpl. now rewrite Z.eqb_refl. Qed.
End MemoryFacts.

(** ** The reconciler *)

Section ReconcilerFacts.
Context {K : Constants} {X : Type}.
Implicit Types (m : mem X) (c : conn_ptr).

Lemma conn_set_polling_flags c new m :
  conn_flags (final (conn_set_polling c new m)) c
  = committed_flags (conn_flags m c) new.
Proof.
  unfold conn_set_polling, bind, read_flags, read_sock_fd, write_flags, final.
  repeat match goal with
         | |- context [if ?b then _ else _] => destruct b
         end; cbn [fst snd emit ret];
    rewrite !conn_flags_set; reflexivity.
Qed.

Lemma committed_flags_curr f new :
  Z.land (committed_flags f new) CURR_MASK = Z.land new CURR_MASK.
Proof.
  unfold committed_flags. apply Z.bits_inj'. intros i Hi.
  rewrite !Z.land_spec, Z.lor_spec, !Z.land_spec, testbit_uint32, Z.lnot_spec
    by assumption.
  destruct (Z.testbit f i), (Z.testbit new i), (Z.testbit CURR_MASK i),
    (i <? 32); reflexivity.
Qed.

Lemma committed_flags_other f new i :
  is_uint32 f -> 0 <= i -> Z.testbit CURR_MASK i = false ->
  Z.testbit (committed_flags f new) i = Z.testbit f i.
Proof.
  intros Hf Hi Hmask. unfold committed_flags.
  rewrite Z.lor_spec, !Z.land_spec, testbit_uint32, Z.lnot_spec, Hmask
    by assumption.
  destruct (Z.ltb_spec i 32) as [Hlt|Hge].
  - destruct (Z.testbit f i), (Z.testbit new i); reflexivity.
  - rewrite (uint32_high_bits f i Hf Hge).
    destruct (Z.testbit new i); reflexivity.
Qed.

(** A flag inside the current-interest mask is read the same through
    the mask. *)
Lemma land_within_mask (x b mask : Z) :
  Z.land b mask = b -> Z.land x b = Z.land (Z.land x mask) b.
Proof.
  intros Hb. rewrite <- Z.land_assoc, (Z.land_comm mask b), Hb. reflexivity.
Qed.

Lemma rd_ena_in_mask : Z.land CO_FL_CURR_RD_ENA CURR_MASK = CO_FL_CURR_RD_ENA.
Proof. unfold CURR_MASK. bitwise. Qed.

Lemma rd_pol_in_mask : Z.land CO_FL_CURR_RD_POL CURR_MASK = CO_FL_CURR_RD_POL.
Proof. unfold CURR_MASK. bitwise. Qed.

Lemma wr_ena_in_mask : Z.land CO_FL_CURR_WR_ENA CURR_MASK = CO_FL_CURR_WR_ENA.
Proof. unfold CURR_MASK. bitwise. Qed.

Lemma wr_pol_in_mask : Z.land CO_FL_CURR_WR_POL CURR_MASK = CO_FL_CURR_WR_POL.
Proof. unfold CURR_MASK. bitwise. Qed.

Lemma rd_pair_in_mask : Z.land RD_PAIR CURR_MASK = RD_PAIR.
Proof. unfold RD_PAIR, CURR_MASK. bitwise. Qed.

Lemma wr_pair_in_mask : Z.land WR_PAIR CURR_MASK = WR_PAIR.
Proof. unfold WR_PAIR, CURR_MASK. bitwise. Qed.
End ReconcilerFacts.

Section ReconcilerClaims.
Context {K : Constants} {X : Type}.
Implicit Types (m : mem X) (c : conn_ptr).

(** The calls of the reconciler, read off the code. *)
Lemma conn_set_polling_calls_code c new m :
  let old := conn_flags m c in
  let fd := t_sock_fd (conns m c) in
  calls (conn_set_polling c new m) =
    (if negb (Z.land old RD_PAIR =? RD_PAIR) && (Z.land new RD_PAIR =? RD_PAIR)
     then [fd_poll_recv fd]
     else if negb (flag_set old CO_FL_CURR_RD_ENA) && flag_set new CO_FL_CURR_RD_ENA
     then [fd_want_recv fd]
     else if flag_set old CO_FL_CURR_RD_ENA && negb (flag_set new CO_FL_CURR_RD_ENA)
     then [fd_stop_recv fd]
     else [])
    ++
    (if negb (Z.land old WR_PAIR =? WR_PAIR) && (Z.land new WR_PAIR =? WR_PAIR)
     then [fd_poll_send fd]
     else if negb (flag_set old CO_FL_CURR_WR_ENA) && flag_set new CO_FL_CURR_WR_ENA
     then [fd_want_send fd]
     else if flag_set old CO_FL_CURR_WR_ENA && negb (flag_set new CO_FL_CURR_WR_ENA)
     then [fd_stop_send fd]
     else []).
Proof.
  unfold conn_set_polling, bind, read_flags, read_sock_fd, write_flags, calls.
  cbv zeta.
  repeat match goal with
         | |- context [if ?b then _ else _] => destruct b
         end; reflexivity.
Qed.

(** C1. For every current interest state and every requested [new], the
    reconciler issues, per direction, the one call the specification names:
    poll_recv when the (RD_ENA, RD_POL) pair becomes 11 from any other
    value, want_recv when RD_ENA goes 0 to 1 without the pair becoming 11,
    stop_recv when RD_ENA goes 1 to 0, and no call otherwise; the send
    direction does the same with poll_send, want_send and stop_send on
    (WR_ENA, WR_POL).  The receive call, if any, comes first. *)
Theorem conn_set_polling_issues_spec_calls c new m :
  single_bit CO_FL_CURR_RD_ENA = true ->
  single_bit CO_FL_CURR_RD_POL = true ->
  single_bit CO_FL_CURR_WR_ENA = true ->
  single_bit CO_FL_CURR_WR_POL = true ->
  let old := conn_flags m c in
  let fd := t_sock_fd (conns m c) in
  calls (conn_set_polling c new m) =
    spec_recv_calls fd
      (spec_interest_edge (flag_set old CO_FL_CURR_RD_ENA)
                          (flag_set old CO_FL_CURR_RD_POL)
                          (flag_set new CO_FL_CURR_RD_ENA)
                          (flag_set new CO_FL_CURR_RD_POL))
    ++
    spec_send_calls fd
      (spec_interest_edge (flag_set old CO_FL_CURR_WR_ENA)
                          (flag_set old CO_FL_CURR_WR_POL)
                          (flag_set new CO_FL_CURR_WR_ENA)
                          (flag_set new CO_FL_CURR_WR_POL)).
Proof.
  intros Hre Hrp Hwe Hwp old fd.
  rewrite conn_set_polling_calls_code. fold old. fold fd.
  unfold RD_PAIR, WR_PAIR.
  rewrite !pair_test by assumption.
  unfold spec_interest_edge.
  destruct (flag_set old CO_FL_CURR_RD_ENA), (flag_set old CO_FL_CURR_RD_POL),
    (flag_set new CO_FL_CURR_RD_ENA), (flag_set new CO_FL_CURR_RD_POL),
    (flag_set old CO_FL_CURR_WR_ENA), (flag_set old CO_FL_CURR_WR_POL),
    (flag_set new CO_FL_CURR_WR_ENA), (flag_set new CO_FL_CURR_WR_POL);
    reflexivity.
Qed.

(** The reconciler writes the flags of [c] and nothing else. *)
Lemma conn_set_polling_frame c new m :
  let m' := final (conn_set_polling c new m) in
  fdtab m' = fdtab m /\ rest m' = rest m /\
  (forall p, p <> c -> conns m' p = conns m p) /\
  (forall p, t_sock_fd (conns m' p) = t_sock_fd (conns m p)).
Proof.
  unfold conn_set_polling, bind, read_flags, read_sock_fd, write_flags, final.
  cbv zeta.
  repeat match goal with
         | |- context [if ?b then _ else _] => destruct b
         end; cbn [fst snd emit ret set_conn_flags fdtab rest conns];
    (repeat split; intros p; try intros Hp;
     [ destruct (Nat.eqb_spec p c); [contradiction | reflexivity]
     | destruct (Nat.eqb p c); reflexivity ]).
Qed.

(** C6. After [conn_set_polling c new] the four current-interest bits of
    the flags of [c] are those of [new], and every other bit of the flags
    is as before (the flags being an unsigned int). *)
Theorem conn_set_polling_commits_curr_bits c new m :
  is_uint32 (conn_flags m c) ->
  let f' := conn_flags (final (conn_set_polling c new m)) c in
  Z.land f' CO_FL_CURR_RD_ENA = Z.land new CO_FL_CURR_RD_ENA /\
  Z.land f' CO_FL_CURR_RD_POL = Z.land new CO_FL_CURR_RD_POL /\
  Z.land f' CO_FL_CURR_WR_ENA = Z.land new CO_FL_CURR_WR_ENA /\
  Z.land f' CO_FL_CURR_WR_POL = Z.land new CO_FL_CURR_WR_POL /\
  (forall i, 0 <= i -> Z.testbit CURR_MASK i = false ->
             Z.testbit f' i = Z.testbit (conn_flags m c) i).
Proof.
  intros Hf f'. unfold f'. rewrite conn_set_polling_flags.
  pose proof (committed_flags_curr (conn_flags m c) new) as Hc.
  repeat split.
  - rewrite (land_within_mask _ _ _ rd_ena_in_mask), Hc.
    symmetry. apply land_within_mask, rd_ena_in_mask.
  - rewrite (land_within_mask _ _ _ rd_pol_in_mask), Hc.
    symmetry. apply land_within_mask, rd_pol_in_mask.
  - rewrite (land_within_mask _ _ _ wr_ena_in_mask), Hc.
    symmetry. apply land_within_mask, wr_ena_in_mask.
  - rewrite (land_within_mask _ _ _ wr_pol_in_mask), Hc.
    symmetry. apply land_within_mask, wr_pol_in_mask.
  - intros i Hi Hmask. now apply committed_flags_other.
Qed.

(** Asking for the interest already committed issues no call. *)
Lemma conn_set_polling_same_interest c new m :
  Z.land new CURR_MASK = Z.land (conn_flags m c) CURR_MASK ->
  calls (conn_set_polling c new m) = [].
Proof.
  intros Hsame. rewrite conn_set_polling_calls_code. cbv zeta.
  assert (Hb : forall b, Z.land b CURR_MASK = b ->
                         Z.land new b = Z.land (conn_flags m c) b).
  { intros b Hb.
    rewrite (land_within_mask new b _ Hb), Hsame.
    symmetry. now apply land_within_mask. }
  unfold flag_set.
  rewrite (Hb _ rd_pair_in_mask), (Hb _ wr_pair_in_mask),
    (Hb _ rd_ena_in_mask), (Hb _ wr_ena_in_mask).
  repeat match goal with
         | |- context [Z.eqb ?a ?b] => destruct (Z.eqb a b)
         end; reflexivity.
Qed.

(** C7. Calling the reconciler with the interest already committed issues
    no event-facility call; hence the second of two back-to-back calls
    [conn_set_polling c new] issues none, and the two together issue the
    calls of a single one. *)
Theorem conn_set_polling_idempotent c new m :
  (Z.land new CURR_MASK = Z.land (conn_flags m c) CURR_MASK ->
   calls (conn_set_polling c new m) = []) /\
  calls (conn_set_polling c new (final (conn_set_polling c new m))) = [] /\
  calls (bind (conn_set_polling c new) (fun _ => conn_set_polling c new) m)
  = calls (conn_set_polling c new m).
Proof.
  assert (Hsecond :
    calls (conn_set_polling c new (final (conn_set_polling c new m))) = []).
  { apply conn_set_polling_same_interest.
    rewrite conn_set_polling_flags. symmetry. apply committed_flags_curr. }
  split; [apply conn_set_polling_same_interest|].
  split; [exact Hsecond|].
  unfold bind.
  destruct (conn_set_polling c new m) as [[u m1] t1] eqn:E1.
  unfold final in Hsecond. simpl in Hsecond.
  destruct (conn_set_polling c new m1) as [[u2 m2] t2] eqn:E2.
  unfold calls in *. simpl in *. subst t2. apply app_nil_r.
Qed.
End ReconcilerClaims.

(** ** The handler, stage by stage *)

Section HandlerFacts.
Context {K : Constants} {X : Type} {E : Externals X}.
Implicit Types (m : mem X) (c : conn_ptr) (fd : Z).

Lemma conn_set_polling_fd_calls c new m :
  Forall (fun e => is_fd_call e = true) (calls (conn_set_polling c new m)).
Proof.
  rewrite conn_set_polling_calls_code. cbv zeta.
  apply Forall_app. split;
    repeat match goal with
           | |- context [if ?b then _ else _] => destruct b
           end; repeat constructor.
Qed.

(** The embryonic-abort return of the [leave] label, lines 97-101. *)
Lemma leave_abort c fd m :
  Z.land (conn_flags m c) ERROR_INIT_SESS = ERROR_INIT_SESS ->
  leave c fd m =
    (0, snd (conn_session_complete c CO_FL_INIT_SESS (error_latched c m)),
     [call_conn_session_complete c CO_FL_INIT_SESS]).
Proof.
  intros Hboth.
  unfold leave, bind, read_flags, write_flags, extcall, ret, error_latched.
  rewrite Hboth, Z.eqb_refl.
  destruct (conn_session_complete c CO_FL_INIT_SESS _) as [r m1].
  reflexivity.
Qed.

(** The other path of the [leave] label, lines 103-115. *)
Lemma leave_normal c fd m :
  Z.land (conn_flags m c) ERROR_INIT_SESS <> ERROR_INIT_SESS ->
  let m3 := events_removed fd (established c (notified c m)) in
  leave c fd m =
    (0, final (conn_cond_update_polling c m3),
     (if flag_set (conn_flags m c) CO_FL_NOTIFY_SI
      then [call_conn_notify_si c] else [])
     ++ calls (conn_cond_update_polling c m3)).
Proof.
  intros Hnot m3. subst m3.
  unfold leave, bind, read_flags, write_flags, read_ev, write_ev, void,
    extcall, ret, events_removed, established, notified.
  destruct (Z.eqb_spec (Z.land (conn_flags m c) ERROR_INIT_SESS)
              ERROR_INIT_SESS) as [Heq|_]; [contradiction|].
  destruct (flag_set (conn_flags m c) CO_FL_NOTIFY_SI); cbv beta iota zeta.
  - destruct (flag_set (conn_flags (conn_notify_si c m) c) ESTABLISHED_MASK);
      cbv beta iota zeta; cbn [negb];
      match goal with
      | |- context [conn_cond_update_polling c ?mm] =>
          destruct (conn_cond_update_polling c mm) as [[u m4] t4]
      end; unfold final, calls; cbn [fst snd app]; rewrite ?app_nil_r;
      reflexivity.
  - destruct (flag_set (conn_flags m c) ESTABLISHED_MASK);
      cbv beta iota zeta; cbn [negb];
      match goal with
      | |- context [conn_cond_update_polling c ?mm] =>
          destruct (conn_cond_update_polling c mm) as [[u m4] t4]
      end; unfold final, calls; cbn [fst snd app]; rewrite ?app_nil_r;
      reflexivity.
Qed.

Lemma conn_cond_update_polling_frame c m :
  fdtab (final (conn_cond_update_polling c m)) = fdtab m.
Proof.
  unfold conn_cond_update_polling, bind, read_flags.
  pose proof (conn_set_polling_frame c (desired_polling (conn_flags m c)) m)
    as [Hfd _].
  destruct (conn_set_polling c (desired_polling (conn_flags m c)) m)
    as [[u m1] t1].
  unfold final in *. simpl in *. exact Hfd.
Qed.

Lemma conn_cond_update_polling_calls c m :
  Forall (fun e => is_fd_call e = true) (calls (conn_cond_update_polling c m)).
Proof.
  unfold conn_cond_update_polling, bind, read_flags.
  pose proof (conn_set_polling_fd_calls c (desired_polling (conn_flags m c)) m)
    as H.
  destruct (conn_set_polling c (desired_polling (conn_flags m c)) m)
    as [[u m1] t1].
  unfold calls in *. simpl in *. exact H.
Qed.

Lemma conn_cond_update_polling_flags c m :
  conn_flags (final (conn_cond_update_polling c m)) c
  = committed_flags (conn_flags m c) (desired_polling (conn_flags m c)).
Proof.
  unfold conn_cond_update_polling, bind, read_flags.
  pose proof (conn_set_polling_flags c (desired_polling (conn_flags m c)) m)
    as H.
  destruct (conn_set_polling c (desired_polling (conn_flags m c)) m)
    as [[u m1] t1].
  unfold final in *. simpl in *. exact H.
Qed.

Lemma conn_cond_update_polling_other c p m :
  p <> c ->
  conn_flags (final (conn_cond_update_polling c m)) p = conn_flags m p.
Proof.
  intros Hp. unfold conn_cond_update_polling, bind, read_flags.
  pose proof (conn_set_polling_frame c (desired_polling (conn_flags m c)) m)
    as [_ [_ [Hc _]]].
  destruct (conn_set_polling c (desired_polling (conn_flags m c)) m)
    as [[u m1] t1].
  unfold final, conn_flags in *. simpl in *. now rewrite Hc.
Qed.

Lemma lnot_clears (e mask : Z) : Z.land (Z.land e (Z.lnot mask)) mask = 0.
Proof.
  rewrite <- Z.land_assoc, (Z.land_comm (Z.lnot mask)), Z.land_lnot_diag.
  apply Z.land_0_r.
Qed.

Lemma leave_value c fd m : value (leave c fd m) = 0.
Proof.
  destruct (Z.eq_dec (Z.land (conn_flags m c) ERROR_INIT_SESS) ERROR_INIT_SESS)
    as [Hboth|Hnot].
  - now rewrite leave_abort.
  - now rewrite leave_normal.
Qed.

Lemma leave_normal_events c fd m :
  Z.land (conn_flags m c) ERROR_INIT_SESS <> ERROR_INIT_SESS ->
  Z.land (fd_ev (final (leave c fd m)) fd) ALL_EVENTS = 0.
Proof.
  intros Hnot. rewrite (leave_normal c fd m Hnot). cbv zeta.
  unfold final at 1. cbn [fst snd]. unfold fd_ev.
  rewrite conn_cond_update_polling_frame.
  fold (fd_ev (events_removed fd (established c (notified c m))) fd).
  unfold events_removed. rewrite fd_ev_set. apply lnot_clears.
Qed.
End HandlerFacts.

Section HandshakeFacts.
Context {K : Constants} {X : Type} {E : Externals X}.
Implicit Types (m : mem X) (c : conn_ptr) (fd : Z).

Lemma handshake_body_error c m :
  flag_set (conn_flags m c) CO_FL_ERROR = true ->
  handshake_body c m = (body_leave, m, []).
Proof.
  intros He. unfold handshake_body, bind, read_flags, ret.
  now rewrite He.
Qed.

(** The body of the loop when ERROR is clear at its top: the PROXY header
    parser runs first if its bit is pending, then, unless it reported
    not-done, the PROXY header sender if its bit is pending in the flags
    the parser left. *)
Lemma handshake_body_run c m :
  flag_set (conn_flags m c) CO_FL_ERROR = false ->
  let ap := flag_set (conn_flags m c) CO_FL_ACCEPT_PROXY in
  let r1 := conn_recv_proxy c CO_FL_ACCEPT_PROXY m in
  let m1 := if ap then snd r1 else m in
  let t1 := if ap then [call_conn_recv_proxy c CO_FL_ACCEPT_PROXY] else [] in
  let sp := flag_set (conn_flags m1 c) CO_FL_SI_SEND_PROXY in
  let r2 := conn_si_send_proxy c CO_FL_SI_SEND_PROXY m1 in
  let m2 := if sp then snd r2 else m1 in
  let t2 := if sp then [call_conn_si_send_proxy c CO_FL_SI_SEND_PROXY] else [] in
  handshake_body c m =
    if ap && (fst r1 =? 0) then (body_leave, m1, t1)
    else (if sp && (fst r2 =? 0) then body_leave else body_continue,
          m2, t1 ++ t2).
Proof.
  intros He. cbv zeta.
  unfold handshake_body, bind, read_flags, extcall, ret. rewrite He.
  destruct (flag_set (conn_flags m c) CO_FL_ACCEPT_PROXY).
  - destruct (conn_recv_proxy c CO_FL_ACCEPT_PROXY m) as [r1 m1].
    cbn [fst snd andb]. destruct (r1 =? 0); [reflexivity|].
    destruct (flag_set (conn_flags m1 c) CO_FL_SI_SEND_PROXY).
    + destruct (conn_si_send_proxy c CO_FL_SI_SEND_PROXY m1) as [r2 m2].
      cbn [fst snd andb]. destruct (r2 =? 0); reflexivity.
    + reflexivity.
  - cbn [andb].
    destruct (flag_set (conn_flags m c) CO_FL_SI_SEND_PROXY).
    + destruct (conn_si_send_proxy c CO_FL_SI_SEND_PROXY m) as [r2 m2].
      cbn [fst snd andb]. destruct (r2 =? 0); reflexivity.
    + reflexivity.
Qed.

Lemma handshake_body_calls c m :
  Forall (fun e => is_handshake_call e = true) (calls (handshake_body c m)).
Proof.
  destruct (flag_set (conn_flags m c) CO_FL_ERROR) eqn:He.
  - rewrite handshake_body_error by assumption. constructor.
  - rewrite (handshake_body_run c m He). cbv zeta.
    repeat match goal with
           | |- context [if ?b then _ else _] => destruct b
           end; unfold calls; cbn [snd app]; repeat constructor.
Qed.

Lemma handshake_loop_calls fuel : forall c m x m' t,
  handshake_loop fuel c m = Some (x, m', t) ->
  Forall (fun e => is_handshake_call e = true) t.
Proof.
  induction fuel as [|n IH]; intros c m x m' t H; [discriminate|].
  cbn [handshake_loop] in H.
  destruct (flag_set (conn_flags m c) CO_FL_HANDSHAKE).
  - pose proof (handshake_body_calls c m) as Hb.
    destruct (handshake_body c m) as [[b m1] t1].
    unfold calls in Hb. cbn [snd] in Hb.
    destruct b.
    + destruct (handshake_loop n c m1) as [[[x2 m2] t2]|] eqn:Hl;
        [|discriminate].
      inversion H; subst. apply Forall_app. split; [exact Hb|].
      eapply IH; eassumption.
    + inversion H; subst. exact Hb.
  - inversion H; subst. constructor.
Qed.

(** How the loop ends: with its condition false, or from a body that
    jumped to [leave]. *)
Lemma handshake_loop_exit fuel : forall c m x m' t,
  handshake_loop fuel c m = Some (x, m', t) ->
  match x with
  | loop_done => flag_set (conn_flags m' c) CO_FL_HANDSHAKE = false
  | loop_leave =>
      exists m0, flag_set (conn_flags m0 c) CO_FL_HANDSHAKE = true /\
                 value (handshake_body c m0) = body_leave /\
                 final (handshake_body c m0) = m'
  end.
Proof.
  induction fuel as [|n IH]; intros c m x m' t H; [discriminate|].
  cbn [handshake_loop] in H.
  destruct (flag_set (conn_flags m c) CO_FL_HANDSHAKE) eqn:Hh.
  - destruct (handshake_body c m) as [[b m1] t1] eqn:Hb.
    destruct b.
    + destruct (handshake_loop n c m1) as [[[x2 m2] t2]|] eqn:Hl;
        [|discriminate].
      inversion H; subst. eapply IH; eassumption.
    + inversion H; subst. exists m. rewrite Hb. now repeat split.
  - inversion H; subst. exact Hh.
Qed.

Lemma leave_calls c fd m :
  Forall (fun e => is_data_call e = false /\ is_handshake_call e = false)
         (calls (leave c fd m)).
Proof.
  destruct (Z.eq_dec (Z.land (conn_flags m c) ERROR_INIT_SESS) ERROR_INIT_SESS)
    as [Hboth|Hnot].
  - rewrite leave_abort by assumption. repeat constructor.
  - rewrite (leave_normal c fd m Hnot). cbv zeta. unfold calls at 1.
    cbn [snd]. apply Forall_app. split.
    + destruct (flag_set (conn_flags m c) CO_FL_NOTIFY_SI); repeat constructor.
    + eapply Forall_impl; [|apply conn_cond_update_polling_calls].
      intros e He. destruct e; try discriminate; now split.
Qed.
End HandshakeFacts.

Section DataPhaseFacts.
Context {K : Constants} {X : Type} {E : Externals X}.
Implicit Types (m : mem X) (c : conn_ptr) (fd : Z).

(** The data phase, read off lines 63-93. *)
Lemma data_phase_run c fd m :
  let m1 := received c fd m in
  let t1 := if flag_set (fd_ev m fd) RECV_EVENTS
            then [call_app_cb_recv c] else [] in
  let m2 := sent c fd m1 in
  let t2 := if flag_set (fd_ev m1 fd) SEND_EVENTS
            then [call_app_cb_send c] else [] in
  data_phase c fd m =
    if flag_set (conn_flags m1 c) CO_FL_ERROR then (exit_leave, m1, t1)
    else if flag_set (conn_flags m1 c) CO_FL_HANDSHAKE
    then (exit_handshake, m1, t1)
    else if flag_set (conn_flags m2 c) CO_FL_ERROR
    then (exit_leave, m2, t1 ++ t2)
    else if flag_set (conn_flags m2 c) CO_FL_HANDSHAKE
    then (exit_handshake, m2, t1 ++ t2)
    else if flag_set (conn_flags m2 c) CO_FL_WAIT_L4_CONN
    then (exit_leave, snd (tcp_connect_probe c m2),
          t1 ++ t2 ++ [call_tcp_connect_probe c])
    else (exit_leave, m2, t1 ++ t2).
Proof.
  cbv zeta.
  unfold data_phase, received, sent, bind, read_flags, read_ev, void,
    extcall, ret.
  destruct (flag_set (fd_ev m fd) RECV_EVENTS); cbv beta iota zeta.
  - set (m1 := app_cb_recv c m).
    destruct (flag_set (conn_flags m1 c) CO_FL_ERROR); [reflexivity|].
    destruct (flag_set (conn_flags m1 c) CO_FL_HANDSHAKE); [reflexivity|].
    destruct (flag_set (fd_ev m1 fd) SEND_EVENTS); cbv beta iota zeta.
    + set (m2 := app_cb_send c m1).
      destruct (flag_set (conn_flags m2 c) CO_FL_ERROR); [reflexivity|].
      destruct (flag_set (conn_flags m2 c) CO_FL_HANDSHAKE); [reflexivity|].
      destruct (flag_set (conn_flags m2 c) CO_FL_WAIT_L4_CONN);
        [|reflexivity].
      destruct (tcp_connect_probe c m2) as [r m3]. cbn [snd].
      destruct (r =? 0); reflexivity.
    + destruct (flag_set (conn_flags m1 c) CO_FL_ERROR); [reflexivity|].
      destruct (flag_set (conn_flags m1 c) CO_FL_HANDSHAKE); [reflexivity|].
      destruct (flag_set (conn_flags m1 c) CO_FL_WAIT_L4_CONN);
        [|reflexivity].
      destruct (tcp_connect_probe c m1) as [r m3]. cbn [snd].
      destruct (r =? 0); reflexivity.
  - destruct (flag_set (conn_flags m c) CO_FL_ERROR); [reflexivity|].
    destruct (flag_set (conn_flags m c) CO_FL_HANDSHAKE); [reflexivity|].
    destruct (flag_set (fd_ev m fd) SEND_EVENTS); cbv beta iota zeta.
    + set (m2 := app_cb_send c m).
      destruct (flag_set (conn_flags m2 c) CO_FL_ERROR); [reflexivity|].
      destruct (flag_set (conn_flags m2 c) CO_FL_HANDSHAKE); [reflexivity|].
      destruct (flag_set (conn_flags m2 c) CO_FL_WAIT_L4_CONN);
        [|reflexivity].
      destruct (tcp_connect_probe c m2) as [r m3]. cbn [snd].
      destruct (r =? 0); reflexivity.
    + destruct (flag_set (conn_flags m c) CO_FL_ERROR); [reflexivity|].
      destruct (flag_set (conn_flags m c) CO_FL_HANDSHAKE); [reflexivity|].
      destruct (flag_set (conn_flags m c) CO_FL_WAIT_L4_CONN);
        [|reflexivity].
      destruct (tcp_connect_probe c m) as [r m3]. cbn [snd].
      destruct (r =? 0); reflexivity.
Qed.

(** Lines 51-61, then the data phase unless the session shim failed. *)
Lemma after_handshake_run c fd m :
  let stop := negb (flag_set (conn_flags m c) CO_FL_POLL_SOCK) in
  let m1 := if stop then __conn_sock_stop_both c m else m in
  let t1 := if stop then [call_conn_sock_stop_both c] else [] in
  let init := flag_set (conn_flags m1 c) CO_FL_INIT_SESS in
  let r := conn_session_complete c CO_FL_INIT_SESS m1 in
  let t2 := if init then [call_conn_session_complete c CO_FL_INIT_SESS]
            else [] in
  after_handshake c fd m =
    if init && (fst r <? 0) then (exit_return, snd r, t1 ++ t2)
    else after (t1 ++ t2) (data_phase c fd (if init then snd r else m1)).
Proof.
  cbv zeta.
  unfold after_handshake, bind, read_flags, void, extcall, ret, after,
    value, final, calls.
  destruct (flag_set (conn_flags m c) CO_FL_POLL_SOCK); cbn [negb];
    cbv beta iota zeta.
  - destruct (flag_set (conn_flags m c) CO_FL_INIT_SESS); cbn [andb].
    + destruct (conn_session_complete c CO_FL_INIT_SESS m) as [r m2].
      cbn [fst snd]. destruct (r <? 0); [reflexivity|].
      destruct (data_phase c fd m2) as [[x m3] t3]. reflexivity.
    + destruct (data_phase c fd m) as [[x m3] t3]. reflexivity.
  - set (m1 := __conn_sock_stop_both c m).
    destruct (flag_set (conn_flags m1 c) CO_FL_INIT_SESS); cbn [andb].
    + destruct (conn_session_complete c CO_FL_INIT_SESS m1) as [r m2].
      cbn [fst snd]. destruct (r <? 0); [reflexivity|].
      destruct (data_phase c fd m2) as [[x m3] t3]. reflexivity.
    + destruct (data_phase c fd m1) as [[x m3] t3]. reflexivity.
Qed.
End DataPhaseFacts.

Section HandlerClaims.
Context {K : Constants} {X : Type} {E : Externals X}.
Implicit Types (m : mem X) (c : conn_ptr) (fd : Z).

(** C9. On a descriptor without owner the handler returns 0 at once,
    whatever the fuel: it makes no call, to the event facility or to any
    callback or sub-handler, and leaves the memory, the event slot
    included, as it found it. *)
Theorem conn_fd_handler_unowned fuel fd m :
  owner (fdtab m fd) = None ->
  conn_fd_handler fuel fd m = Some (0, m, []).
Proof. intros Hnone. unfold conn_fd_handler. now rewrite Hnone. Qed.

Lemma lor_absorbs (f e : Z) : Z.land f e = e -> Z.lor f e = f.
Proof.
  intros H. apply Z.bits_inj'. intros i Hi.
  apply (f_equal (fun z => Z.testbit z i)) in H.
  rewrite Z.land_spec in H. rewrite Z.lor_spec.
  destruct (Z.testbit f i), (Z.testbit e i); simpl in *; congruence.
Qed.

(** C5. When the [leave] label is reached with ERROR and INIT_SESS both
    set, the handler calls [conn_session_complete conn CO_FL_INIT_SESS]
    and returns 0 at once: that call is the only one made (no upstream
    notification, no reconciler call) and the flags handed to the shim
    are the flags at the label, so CONNECTED is not set.  When the two are
    not both set, [conn_notify_si] is called exactly when NOTIFY_SI is
    set, and the session shim is not called. *)
Theorem leave_embryonic_abort c fd m :
  single_bit CO_FL_ERROR = true ->
  single_bit CO_FL_INIT_SESS = true ->
  let f := conn_flags m c in
  let both := flag_set f CO_FL_ERROR && flag_set f CO_FL_INIT_SESS in
  (both = true ->
   leave c fd m =
     (0, snd (conn_session_complete c CO_FL_INIT_SESS (error_latched c m)),
      [call_conn_session_complete c CO_FL_INIT_SESS]) /\
   conn_flags (error_latched c m) c = f) /\
  (both = false ->
   value (leave c fd m) = 0 /\
   (In (call_conn_notify_si c) (calls (leave c fd m))
    <-> flag_set f CO_FL_NOTIFY_SI = true) /\
   ~ In (call_conn_session_complete c CO_FL_INIT_SESS) (calls (leave c fd m))).
Proof.
  intros He Hi f both.
  assert (Htest : (Z.land f ERROR_INIT_SESS =? ERROR_INIT_SESS) = both).
  { unfold ERROR_INIT_SESS, both. now apply pair_test. }
  split; intros Hb; rewrite Hb in Htest.
  - apply Z.eqb_eq in Htest. split; [now apply leave_abort|].
    unfold error_latched. rewrite conn_flags_set.
    apply lor_absorbs. fold f.
    apply andb_true_iff in Hb. destruct Hb as [Hb _].
    rewrite (flag_set_single f _ He) in Hb. now apply Z.eqb_eq.
  - apply Z.eqb_neq in Htest. split; [apply leave_value|].
    rewrite (leave_normal c fd m Htest). cbv zeta. unfold calls at 1 3.
    cbn [snd]. fold f.
    pose proof (conn_cond_update_polling_calls c
                  (events_removed fd (established c (notified c m)))) as Hfd.
    rewrite Forall_forall in Hfd.
    split; [split|].
    + intros Hin. apply in_app_or in Hin. destruct Hin as [Hin|Hin].
      * destruct (flag_set f CO_FL_NOTIFY_SI); [reflexivity | destruct Hin].
      * apply Hfd in Hin. discriminate.
    + intros Hn. rewrite Hn. apply in_or_app. left. now left.
    + intros Hin. apply in_app_or in Hin. destruct Hin as [Hin|Hin].
      * destruct (flag_set f CO_FL_NOTIFY_SI); simpl in Hin;
          [destruct Hin as [Hin|[]]; discriminate | destruct Hin].
      * apply Hfd in Hin. discriminate.
Qed.

(** Whatever precedes it, a pass through [leave] ends with the events
    cleared or with the embryonic abort. *)
Lemma leave_outcome c fd m t :
  value (after t (leave c fd m)) = 0 /\
  (events_cleared fd (after t (leave c fd m)) \/
   session_aborted c (after t (leave c fd m))).
Proof.
  unfold after at 1. unfold value at 1. cbn [fst]. split; [apply leave_value|].
  destruct (Z.eq_dec (Z.land (conn_flags m c) ERROR_INIT_SESS) ERROR_INIT_SESS)
    as [Hboth|Hnot].
  - right. exists m, t. rewrite (leave_abort c fd m Hboth).
    repeat split. exact Hboth.
  - left. unfold events_cleared, after, final at 1. cbn [fst snd].
    now apply leave_normal_events.
Qed.

Lemma data_phase_never_returns c fd m :
  value (data_phase c fd m) <> exit_return.
Proof.
  rewrite data_phase_run. cbv zeta.
  repeat match goal with
         | |- context [if ?b then _ else _] => destruct b
         end; unfold value; cbn [fst]; discriminate.
Qed.

(** Calls made earlier do not change how a cycle ended. *)
Lemma outcome_after c fd t (r : Z * mem X * list call) :
  value r = 0 /\
  (events_cleared fd r \/ session_failed c r \/ session_aborted c r) ->
  value (after t r) = 0 /\
  (events_cleared fd (after t r) \/ session_failed c (after t r) \/
   session_aborted c (after t r)).
Proof.
  destruct r as [[v mr] tr]. intros [Hv Hcases]. split; [exact Hv|].
  destruct Hcases as [Hc|[Hf|Ha]].
  - left. exact Hc.
  - right. left. destruct Hf as [m0 [t0 [H1 [H2 [H3 H4]]]]].
    exists m0, (t ++ t0). repeat split; try assumption.
    unfold after, calls in *. cbn [snd] in *. rewrite H4.
    apply app_assoc.
  - right. right. destruct Ha as [m0 [t0 [H1 [H2 H3]]]].
    exists m0, (t ++ t0). repeat split; try assumption.
    unfold after, calls in *. cbn [snd] in *. rewrite H3.
    apply app_assoc.
Qed.

Lemma process_handshake_outcome fuel : forall c fd m r,
  process_handshake fuel c fd m = Some r ->
  value r = 0 /\
  (events_cleared fd r \/ session_failed c r \/ session_aborted c r).
Proof.
  induction fuel as [|n IH]; intros c fd m r H; [discriminate|].
  cbn [process_handshake] in H.
  destruct (handshake_loop (S n) c m) as [[[x m1] t1]|]; [|discriminate].
  destruct x.
  - pose proof (after_handshake_run c fd m1) as Hrun. cbv zeta in Hrun.
    set (stop := negb (flag_set (conn_flags m1 c) CO_FL_POLL_SOCK)) in *.
    set (ms := if stop then __conn_sock_stop_both c m1 else m1) in *.
    set (ts := if stop then [call_conn_sock_stop_both c] else []) in *.
    destruct (flag_set (conn_flags ms c) CO_FL_INIT_SESS) eqn:Hinit;
      cbn [andb] in Hrun.
    + destruct (fst (conn_session_complete c CO_FL_INIT_SESS ms) <? 0)
        eqn:Hneg.
      * rewrite Hrun in H. inversion H; subst r. split; [reflexivity|].
        right. left. exists ms, (t1 ++ ts). apply Z.ltb_lt in Hneg.
        repeat split; try assumption.
        unfold calls. cbn [snd]. now rewrite app_assoc.
      * rewrite Hrun in H.
        pose proof (data_phase_never_returns c fd
                      (snd (conn_session_complete c CO_FL_INIT_SESS ms)))
          as Hnr.
        destruct (data_phase c fd _) as [[x m2] t2].
        unfold after, value, final, calls in H, Hnr. cbn [fst snd] in H, Hnr.
        destruct x; [contradiction | | ].
        -- inversion H; subst r.
           destruct (leave_outcome c fd m2
                       (t1 ++ (ts ++ [call_conn_session_complete c
                                        CO_FL_INIT_SESS]) ++ t2))
             as [Hv [Hc|Ha]]; auto.
        -- destruct (process_handshake n c fd m2) as [r2|] eqn:Hp;
             [|discriminate].
           inversion H; subst r.
           apply outcome_after. eapply IH. exact Hp.
    + rewrite Hrun in H.
      pose proof (data_phase_never_returns c fd ms) as Hnr.
      destruct (data_phase c fd ms) as [[x m2] t2].
      unfold after, value, final, calls in H, Hnr. cbn [fst snd] in H, Hnr.
      destruct x; [contradiction | | ].
      * inversion H; subst r.
        destruct (leave_outcome c fd m2 (t1 ++ (ts ++ []) ++ t2))
          as [Hv [Hc|Ha]]; auto.
      * destruct (process_handshake n c fd m2) as [r2|] eqn:Hp;
          [|discriminate].
        inversion H; subst r.
        apply outcome_after. eapply IH. exact Hp.
  - inversion H; subst r.
    destruct (leave_outcome c fd m1 t1) as [Hv [Hc|Ha]]; auto.
Qed.
End HandlerClaims.

Section CycleClaims.
Context {K : Constants} {X : Type} {E : Externals X}.
Implicit Types (m : mem X) (c : conn_ptr) (fd : Z).

(** C2, as the code has it.  A call of the handler on an owned descriptor
    that returns, returns 0 and ends in one of three ways: with the four
    event bits POLL_IN, POLL_OUT, POLL_HUP, POLL_ERR cleared from the slot
    (line 115), which is what happens whenever the [leave] label is reached
    without ERROR and INIT_SESS both set; right after a session shim call
    that returned a negative value (line 61); or right after the session
    shim call of the embryonic abort (line 100).  The two early returns are
    taken: with ERROR and INIT_SESS both set the [leave] label, and the
    handler when the loop jumps to it, stop at the shim call of line 99;
    and when the shim called on line 60 returns a negative value the handler
    stops there.  In both the memory returned is the one the shim left, so
    the handler has not cleared the slot. *)
Theorem conn_fd_handler_clears_events_unless_session_dropped fuel fd m c r :
  owner (fdtab m fd) = Some c ->
  conn_fd_handler fuel fd m = Some r ->
  (value r = 0 /\
   (events_cleared fd r \/ session_failed c r \/ session_aborted c r)) /\
  (forall m1, Z.land (conn_flags m1 c) ERROR_INIT_SESS <> ERROR_INIT_SESS ->
              events_cleared fd (leave c fd m1)) /\
  (forall m1, Z.land (conn_flags m1 c) ERROR_INIT_SESS = ERROR_INIT_SESS ->
              leave c fd m1 =
                (0, snd (conn_session_complete c CO_FL_INIT_SESS
                           (error_latched c m1)),
                 [call_conn_session_complete c CO_FL_INIT_SESS])) /\
  (forall n m1 t1,
      handshake_loop (S n) c m = Some (loop_leave, m1, t1) ->
      Z.land (conn_flags m1 c) ERROR_INIT_SESS = ERROR_INIT_SESS ->
      conn_fd_handler (S n) fd m =
        Some (0, snd (conn_session_complete c CO_FL_INIT_SESS
                        (error_latched c m1)),
              t1 ++ [call_conn_session_complete c CO_FL_INIT_SESS])) /\
  (forall n mh th,
      handshake_loop (S n) c m = Some (loop_done, mh, th) ->
      let stop := negb (flag_set (conn_flags mh c) CO_FL_POLL_SOCK) in
      let ms := if stop then __conn_sock_stop_both c mh else mh in
      let ts := if stop then [call_conn_sock_stop_both c] else [] in
      flag_set (conn_flags ms c) CO_FL_INIT_SESS = true ->
      fst (conn_session_complete c CO_FL_INIT_SESS ms) < 0 ->
      conn_fd_handler (S n) fd m =
        Some (0, snd (conn_session_complete c CO_FL_INIT_SESS ms),
              th ++ ts ++ [call_conn_session_complete c CO_FL_INIT_SESS])).
Proof.
  intros Hown Hrun. split; [|split; [|split; [|split]]].
  - unfold conn_fd_handler in Hrun. rewrite Hown in Hrun.
    eapply process_handshake_outcome. exact Hrun.
  - intros m1 Hnot. unfold events_cleared. now apply leave_normal_events.
  - intros m1 Hboth. now apply leave_abort.
  - intros n m1 t1 Hloop Hboth. unfold conn_fd_handler. rewrite Hown.
    cbn [process_handshake].
    change (match n with O | _ => _ end) with (handshake_loop (S n) c m).
    rewrite Hloop, (leave_abort c fd m1 Hboth). reflexivity.
  - intros n mh th Hloop stop ms ts Hinit Hneg.
    unfold conn_fd_handler. rewrite Hown. cbn [process_handshake].
    change (match n with O | _ => _ end) with (handshake_loop (S n) c m).
    rewrite Hloop, after_handshake_run. cbv zeta.
    fold stop. fold ms. fold ts. rewrite Hinit.
    apply Z.ltb_lt in Hneg. rewrite Hneg. reflexivity.
Qed.

(** One pass of the data phase, case by case, and its place after a
    finished handshake loop. *)
Lemma data_phase_pass_order c fd m :
  let recv_due := flag_set (fd_ev m fd) RECV_EVENTS in
  let m1 := received c fd m in
  let send_due := flag_set (fd_ev m1 fd) SEND_EVENTS in
  let m2 := sent c fd m1 in
  let recv_call := if recv_due then [call_app_cb_recv c] else [] in
  let send_call := if send_due then [call_app_cb_send c] else [] in
  let r := data_phase c fd m in
  (In (call_app_cb_recv c) (calls r) <-> recv_due = true) /\
  (flag_set (conn_flags m1 c) CO_FL_ERROR = true ->
   r = (exit_leave, m1, recv_call)) /\
  (flag_set (conn_flags m1 c) CO_FL_ERROR = false ->
   flag_set (conn_flags m1 c) CO_FL_HANDSHAKE = true ->
   r = (exit_handshake, m1, recv_call)) /\
  (flag_set (conn_flags m1 c) CO_FL_ERROR = false ->
   flag_set (conn_flags m1 c) CO_FL_HANDSHAKE = false ->
   (In (call_app_cb_send c) (calls r) <-> send_due = true) /\
   (flag_set (conn_flags m2 c) CO_FL_ERROR = true ->
    r = (exit_leave, m2, recv_call ++ send_call)) /\
   (flag_set (conn_flags m2 c) CO_FL_ERROR = false ->
    flag_set (conn_flags m2 c) CO_FL_HANDSHAKE = true ->
    r = (exit_handshake, m2, recv_call ++ send_call)) /\
   (flag_set (conn_flags m2 c) CO_FL_ERROR = false ->
    flag_set (conn_flags m2 c) CO_FL_HANDSHAKE = false ->
    flag_set (conn_flags m2 c) CO_FL_WAIT_L4_CONN = true ->
    r = (exit_leave, snd (tcp_connect_probe c m2),
         recv_call ++ send_call ++ [call_tcp_connect_probe c])) /\
   (flag_set (conn_flags m2 c) CO_FL_ERROR = false ->
    flag_set (conn_flags m2 c) CO_FL_HANDSHAKE = false ->
    flag_set (conn_flags m2 c) CO_FL_WAIT_L4_CONN = false ->
    r = (exit_leave, m2, recv_call ++ send_call))) /\
  (forall n m0 mh th,
      handshake_loop (S n) c m0 = Some (loop_done, mh, th) ->
      flag_set (conn_flags mh c) CO_FL_HANDSHAKE = false /\
      Forall (fun e => is_handshake_call e = true) th /\
      (value (after_handshake c fd mh) <> exit_handshake ->
       exists r' tl,
         process_handshake (S n) c fd m0 = Some r' /\
         calls r' = th ++ calls (after_handshake c fd mh) ++ tl /\
         Forall (fun e => is_data_call e = false /\
                          is_handshake_call e = false) tl)).
Proof.
  cbv zeta. pose proof (data_phase_run c fd m) as Hrun. cbv zeta in Hrun.
  set (m1 := received c fd m) in *.
  set (m2 := sent c fd m1) in *.
  repeat split.
  - rewrite Hrun. intros Hin.
    destruct (flag_set (fd_ev m fd) RECV_EVENTS); [reflexivity|].
    repeat match type of Hin with
           | context [if ?b then _ else _] => destruct b
           end; unfold calls in Hin; cbn [snd app] in Hin;
      repeat (destruct Hin as [Hin|Hin]; try discriminate); destruct Hin.
  - rewrite Hrun. intros Hdue. rewrite Hdue.
    repeat match goal with
           | |- context [if ?b then _ else _] => destruct b
           end; unfold calls; cbn [snd app In]; tauto.
  - intros He. rewrite Hrun, He. reflexivity.
  - intros He Hh. rewrite Hrun, He, Hh. reflexivity.
  - rewrite Hrun, H, H0. intros Hin.
    destruct (flag_set (fd_ev m1 fd) SEND_EVENTS); [reflexivity|].
    repeat match type of Hin with
           | context [if ?b then _ else _] => destruct b
           end; unfold calls in Hin; cbn [snd app] in Hin;
      repeat (destruct Hin as [Hin|Hin]; try discriminate); destruct Hin.
  - rewrite Hrun, H, H0. intros Hdue. rewrite Hdue.
    repeat match goal with
           | |- context [if ?b then _ else _] => destruct b
           end; unfold calls; cbn [snd app In]; tauto.
  - intros He. rewrite Hrun, H, H0, He. reflexivity.
  - intros He Hh. rewrite Hrun, H, H0, He, Hh. reflexivity.
  - intros He Hh Hw. rewrite Hrun, H, H0, He, Hh, Hw. reflexivity.
  - intros He Hh Hw. rewrite Hrun, H, H0, He, Hh, Hw. reflexivity.
  - apply (handshake_loop_exit _ _ _ _ _ _ H).
  - apply (handshake_loop_calls _ _ _ _ _ _ H).
  - intros Hnh. cbn [process_handshake].
    change (match n with O | _ => _ end) with (handshake_loop (S n) c m0).
    rewrite H.
    destruct (after_handshake c fd mh) as [[x ma] ta].
    unfold value, calls in *. cbn [fst snd] in *.
    destruct x; [ | | contradiction].
    + exists (0, ma, th ++ ta), []. rewrite app_nil_r.
      repeat split. constructor.
    + exists (after (th ++ ta) (leave c fd ma)), (calls (leave c fd ma)).
      repeat split.
      * unfold after, calls. cbn [snd]. now rewrite app_assoc.
      * apply leave_calls.
Qed.

(** C3. One pass of the data phase.  The receive callback is called exactly
    when the slot has POLL_IN, POLL_HUP or POLL_ERR; with ERROR set after
    it the pass goes to [leave]; otherwise with HANDSHAKE set it goes back
    to the handshake loop, the send callback not being called; otherwise the
    send callback is called exactly when the slot has POLL_OUT or POLL_ERR,
    and the same two tests follow; last, with WAIT_L4_CONN still set the
    connect probe is called, and the pass goes to [leave] whatever it
    reports.  The calls are in the order receive, send, probe.  In the
    handler the pass starts only from a handshake loop left with HANDSHAKE
    clear, and its calls come after those of the loop.  The
    stage after the loop is lines 51-61 followed by that pass, and when the
    pass asks for the handshake loop again the handler goes back to the
    label [process_handshake] with the memory the pass left, its calls
    coming after those made so far; when it goes to [leave] the handler
    runs that label on the memory the pass left. *)
Theorem data_phase_order c fd m :
  let recv_due := flag_set (fd_ev m fd) RECV_EVENTS in
  let m1 := received c fd m in
  let send_due := flag_set (fd_ev m1 fd) SEND_EVENTS in
  let m2 := sent c fd m1 in
  let recv_call := if recv_due then [call_app_cb_recv c] else [] in
  let send_call := if send_due then [call_app_cb_send c] else [] in
  let r := data_phase c fd m in
  (In (call_app_cb_recv c) (calls r) <-> recv_due = true) /\
  (flag_set (conn_flags m1 c) CO_FL_ERROR = true ->
   r = (exit_leave, m1, recv_call)) /\
  (flag_set (conn_flags m1 c) CO_FL_ERROR = false ->
   flag_set (conn_flags m1 c) CO_FL_HANDSHAKE = true ->
   r = (exit_handshake, m1, recv_call)) /\
  (flag_set (conn_flags m1 c) CO_FL_ERROR = false ->
   flag_set (conn_flags m1 c) CO_FL_HANDSHAKE = false ->
   (In (call_app_cb_send c) (calls r) <-> send_due = true) /\
   (flag_set (conn_flags m2 c) CO_FL_ERROR = true ->
    r = (exit_leave, m2, recv_call ++ send_call)) /\
   (flag_set (conn_flags m2 c) CO_FL_ERROR = false ->
    flag_set (conn_flags m2 c) CO_FL_HANDSHAKE = true ->
    r = (exit_handshake, m2, recv_call ++ send_call)) /\
   (flag_set (conn_flags m2 c) CO_FL_ERROR = false ->
    flag_set (conn_flags m2 c) CO_FL_HANDSHAKE = false ->
    flag_set (conn_flags m2 c) CO_FL_WAIT_L4_CONN = true ->
    r = (exit_leave, snd (tcp_connect_probe c m2),
         recv_call ++ send_call ++ [call_tcp_connect_probe c])) /\
   (flag_set (conn_flags m2 c) CO_FL_ERROR = false ->
    flag_set (conn_flags m2 c) CO_FL_HANDSHAKE = false ->
    flag_set (conn_flags m2 c) CO_FL_WAIT_L4_CONN = false ->
    r = (exit_leave, m2, recv_call ++ send_call))) /\
  (forall n m0 mh th,
      handshake_loop (S n) c m0 = Some (loop_done, mh, th) ->
      flag_set (conn_flags mh c) CO_FL_HANDSHAKE = false /\
      Forall (fun e => is_handshake_call e = true) th /\
      (value (after_handshake c fd mh) <> exit_handshake ->
       exists r' tl,
         process_handshake (S n) c fd m0 = Some r' /\
         calls r' = th ++ calls (after_handshake c fd mh) ++ tl /\
         Forall (fun e => is_data_call e = false /\
                          is_handshake_call e = false) tl)) /\
  (forall mh,
      let stop := negb (flag_set (conn_flags mh c) CO_FL_POLL_SOCK) in
      let ms := if stop then __conn_sock_stop_both c mh else mh in
      let ts := if stop then [call_conn_sock_stop_both c] else [] in
      let init := flag_set (conn_flags ms c) CO_FL_INIT_SESS in
      let rs := conn_session_complete c CO_FL_INIT_SESS ms in
      let tc := if init then [call_conn_session_complete c CO_FL_INIT_SESS]
                else [] in
      after_handshake c fd mh =
        if init && (fst rs <? 0) then (exit_return, snd rs, ts ++ tc)
        else after (ts ++ tc) (data_phase c fd (if init then snd rs else ms)))
  /\
  (forall n m0 mh th m2 t2,
      handshake_loop (S n) c m0 = Some (loop_done, mh, th) ->
      after_handshake c fd mh = (exit_handshake, m2, t2) ->
      process_handshake (S n) c fd m0 =
        option_map (after (th ++ t2)) (process_handshake n c fd m2) /\
      (forall r2, process_handshake n c fd m2 = Some r2 ->
                  process_handshake (S n) c fd m0 = Some (after (th ++ t2) r2)))
  /\
  (forall n m0 mh th m2 t2,
      handshake_loop (S n) c m0 = Some (loop_done, mh, th) ->
      after_handshake c fd mh = (exit_leave, m2, t2) ->
      process_handshake (S n) c fd m0 =
        Some (after (th ++ t2) (leave c fd m2))).
Proof.
  pose proof (data_phase_pass_order c fd m) as Hpass. cbv zeta in *.
  destruct Hpass as (H1 & H2 & H3 & H4 & H5).
  split; [exact H1|]. split; [exact H2|]. split; [exact H3|].
  split; [exact H4|]. split; [exact H5|]. split; [|split]; cycle 2.
  { intros n m0 mh th m2 t2 Hloop Hafter. cbn [process_handshake].
    change (match n with O | _ => _ end) with (handshake_loop (S n) c m0).
    now rewrite Hloop, Hafter. }
  - intros mh. apply after_handshake_run.
  - intros n m0 mh th m2 t2 Hloop Hafter.
    assert (Hre : process_handshake (S n) c fd m0 =
                  option_map (after (th ++ t2)) (process_handshake n c fd m2)).
    { cbn [process_handshake].
      change (match n with O | _ => _ end) with (handshake_loop (S n) c m0).
      now rewrite Hloop, Hafter. }
    split; [exact Hre|]. intros r2 Hr2. now rewrite Hre, Hr2.
Qed.
End CycleClaims.

Section HandshakeClaims.
Context {K : Constants} {X : Type} {E : Externals X}.
Implicit Types (m : mem X) (c : conn_ptr) (fd : Z).

(** The loop body and the loop, case by case. *)
Lemma handshake_loop_cases c fd m :
  let f := conn_flags m c in
  let parsed := if flag_set f CO_FL_ACCEPT_PROXY
                then snd (conn_recv_proxy c CO_FL_ACCEPT_PROXY m) else m in
  (exists a b : bool,
      calls (handshake_body c m) =
        (if a then [call_conn_recv_proxy c CO_FL_ACCEPT_PROXY] else [])
        ++ (if b then [call_conn_si_send_proxy c CO_FL_SI_SEND_PROXY] else [])
      /\ (flag_set f CO_FL_ERROR = false -> a = flag_set f CO_FL_ACCEPT_PROXY))
  /\
  (value (handshake_body c m) = body_leave <->
   flag_set f CO_FL_ERROR = true \/
   (flag_set f CO_FL_ERROR = false /\
    flag_set f CO_FL_ACCEPT_PROXY = true /\
    fst (conn_recv_proxy c CO_FL_ACCEPT_PROXY m) = 0) \/
   (flag_set f CO_FL_ERROR = false /\
    (flag_set f CO_FL_ACCEPT_PROXY = true ->
     fst (conn_recv_proxy c CO_FL_ACCEPT_PROXY m) <> 0) /\
    flag_set (conn_flags parsed c) CO_FL_SI_SEND_PROXY = true /\
    fst (conn_si_send_proxy c CO_FL_SI_SEND_PROXY parsed) = 0))
  /\
  (forall fuel x m' t,
      handshake_loop fuel c m = Some (x, m', t) ->
      Forall (fun e => is_handshake_call e = true) t /\
      match x with
      | loop_done => flag_set (conn_flags m' c) CO_FL_HANDSHAKE = false
      | loop_leave =>
          exists m0, flag_set (conn_flags m0 c) CO_FL_HANDSHAKE = true /\
                     value (handshake_body c m0) = body_leave /\
                     final (handshake_body c m0) = m'
      end)
  /\
  (forall n, flag_set f CO_FL_HANDSHAKE = false ->
             handshake_loop (S n) c m = Some (loop_done, m, []))
  /\
  (forall n, flag_set f CO_FL_HANDSHAKE = true ->
             value (handshake_body c m) = body_continue ->
             handshake_loop (S n) c m =
               option_map (after (calls (handshake_body c m)))
                          (handshake_loop n c (final (handshake_body c m))))
  /\
  (forall n m1 t1,
      handshake_loop (S n) c m = Some (loop_leave, m1, t1) ->
      process_handshake (S n) c fd m = Some (after t1 (leave c fd m1)) /\
      Forall (fun e => is_data_call e = false)
             (calls (after t1 (leave c fd m1)))).
Proof.
  cbv zeta. split; [|split; [|split; [|split; [|split]]]].
  - destruct (flag_set (conn_flags m c) CO_FL_ERROR) eqn:He.
    + exists false, false. rewrite handshake_body_error by assumption.
      split; [reflexivity | discriminate].
    + rewrite (handshake_body_run c m He). cbv zeta.
      destruct (flag_set (conn_flags m c) CO_FL_ACCEPT_PROXY).
      * destruct (fst (conn_recv_proxy c CO_FL_ACCEPT_PROXY m) =? 0);
          cbn [andb].
        -- exists true, false. split; reflexivity.
        -- exists true.
           exists (flag_set
                     (conn_flags
                        (snd (conn_recv_proxy c CO_FL_ACCEPT_PROXY m)) c)
                     CO_FL_SI_SEND_PROXY).
           split; reflexivity.
      * cbn [andb].
        exists false, (flag_set (conn_flags m c) CO_FL_SI_SEND_PROXY).
        split; reflexivity.
  - destruct (flag_set (conn_flags m c) CO_FL_ERROR) eqn:He.
    + rewrite handshake_body_error by assumption.
      split; [now left | reflexivity].
    + rewrite (handshake_body_run c m He). cbv zeta.
      destruct (flag_set (conn_flags m c) CO_FL_ACCEPT_PROXY);
        cbn [andb].
      * destruct (Z.eqb_spec (fst (conn_recv_proxy c CO_FL_ACCEPT_PROXY m)) 0)
          as [Hr|Hr].
        -- split; [|reflexivity]. intros _. right. left. auto.
        -- set (m1 := snd (conn_recv_proxy c CO_FL_ACCEPT_PROXY m)).
           destruct (flag_set (conn_flags m1 c) CO_FL_SI_SEND_PROXY);
             cbn [andb].
           ++ destruct (Z.eqb_spec
                          (fst (conn_si_send_proxy c CO_FL_SI_SEND_PROXY m1)) 0)
                as [Hs|Hs]; unfold value; cbn [fst].
              ** split; [|reflexivity]. intros _. right. right. auto.
              ** split; [discriminate|].
                 intros [Hx|[[_ [_ Hx]]|[_ [_ [_ Hx]]]]];
                   try discriminate; contradiction.
           ++ unfold value; cbn [fst]. split; [discriminate|].
              intros [Hx|[[_ [_ Hx]]|[_ [_ [Hx _]]]]];
                try discriminate; contradiction.
      * destruct (flag_set (conn_flags m c) CO_FL_SI_SEND_PROXY);
          cbn [andb].
        -- destruct (Z.eqb_spec
                       (fst (conn_si_send_proxy c CO_FL_SI_SEND_PROXY m)) 0)
             as [Hs|Hs]; unfold value; cbn [fst].
           ++ split; [|reflexivity]. intros _. right. right.
              repeat split; auto. discriminate.
           ++ split; [discriminate|].
              intros [Hx|[[_ [Hx _]]|[_ [_ [_ Hx]]]]];
                try discriminate; contradiction.
        -- unfold value; cbn [fst]. split; [discriminate|].
           intros [Hx|[[_ [Hx _]]|[_ [_ [Hx _]]]]]; discriminate.
  - intros fuel x m' t H. split.
    + eapply handshake_loop_calls; eassumption.
    + eapply handshake_loop_exit; eassumption.
  - intros n Hh. cbn [handshake_loop]. now rewrite Hh.
  - intros n Hh Hb. cbn [handshake_loop]. rewrite Hh.
    destruct (handshake_body c m) as [[b m1] t1].
    unfold value, final, calls in *. cbn [fst snd] in *. subst b.
    destruct (handshake_loop n c m1) as [[[x2 m2] t2]|]; reflexivity.
  - intros n m1 t1 H. split.
    + cbn [process_handshake].
      change (match n with O | _ => _ end) with (handshake_loop (S n) c m).
      now rewrite H.
    + unfold after, calls at 1. cbn [snd]. apply Forall_app. split.
      * eapply Forall_impl; [|eapply handshake_loop_calls; exact H].
        intros e He. destruct e; try discriminate; reflexivity.
      * eapply Forall_impl; [|apply leave_calls].
        intros e [He _]. exact He.
Qed.


(** C10. ERROR is tested at the top of the loop body only.  When the
    PROXY header parser, called with ERROR clear, sets ERROR and still
    reports done while SI_SEND_PROXY is pending, the PROXY header sender is
    called in the same run of the body, on a memory where ERROR is already
    set; if it reports done too and HANDSHAKE and ERROR are still set, the
    loop is left through the ERROR test at the top of the next run, no
    further call being made. *)
Theorem handshake_body_error_seen_late c m r1 m1 r2 m2 :
  flag_set (conn_flags m c) CO_FL_HANDSHAKE = true ->
  flag_set (conn_flags m c) CO_FL_ERROR = false ->
  flag_set (conn_flags m c) CO_FL_ACCEPT_PROXY = true ->
  conn_recv_proxy c CO_FL_ACCEPT_PROXY m = (r1, m1) ->
  r1 <> 0 ->
  flag_set (conn_flags m1 c) CO_FL_ERROR = true ->
  flag_set (conn_flags m1 c) CO_FL_SI_SEND_PROXY = true ->
  conn_si_send_proxy c CO_FL_SI_SEND_PROXY m1 = (r2, m2) ->
  handshake_body c m =
    (if r2 =? 0 then body_leave else body_continue, m2,
     [call_conn_recv_proxy c CO_FL_ACCEPT_PROXY;
      call_conn_si_send_proxy c CO_FL_SI_SEND_PROXY]) /\
  (r2 <> 0 ->
   flag_set (conn_flags m2 c) CO_FL_HANDSHAKE = true ->
   flag_set (conn_flags m2 c) CO_FL_ERROR = true ->
   handshake_body c m2 = (body_leave, m2, []) /\
   forall n, handshake_loop (S (S n)) c m =
               Some (loop_leave, m2,
                     [call_conn_recv_proxy c CO_FL_ACCEPT_PROXY;
                      call_conn_si_send_proxy c CO_FL_SI_SEND_PROXY])).
Proof.
  intros Hh He Hap Hrecv Hr1 He1 Hsp Hsend.
  assert (Hbody : handshake_body c m =
    (if r2 =? 0 then body_leave else body_continue, m2,
     [call_conn_recv_proxy c CO_FL_ACCEPT_PROXY;
      call_conn_si_send_proxy c CO_FL_SI_SEND_PROXY])).
  { rewrite (handshake_body_run c m He). cbv zeta.
    rewrite Hap, Hrecv. cbn [fst snd andb].
    destruct (Z.eqb_spec r1 0) as [Hz|_]; [contradiction|].
    rewrite Hsp, Hsend. cbn [fst snd andb app].
    destruct (r2 =? 0); reflexivity. }
  split; [exact Hbody|].
  intros Hr2 Hh2 He2.
  assert (Hnext : handshake_body c m2 = (body_leave, m2, []))
    by now apply handshake_body_error.
  split; [exact Hnext|].
  intros n. cbn [handshake_loop]. rewrite Hh, Hbody.
  destruct (Z.eqb_spec r2 0) as [Hz|_]; [contradiction|].
  rewrite Hh2, Hnext. reflexivity.
Qed.
End HandshakeClaims.

(** ** The CONNECTED flag across cycles *)

Section ConnectedFacts.
Context {K : Constants} {X : Type} {E : Externals X}.
Variable c : conn_ptr.
Hypothesis Hkeep : externals_keep_connected c.
Hypothesis Hrange : is_uint32 CO_FL_CONNECTED.
Hypothesis Hcurr : Z.land CO_FL_CONNECTED CURR_MASK = 0.
Implicit Types (m : mem X) (p : conn_ptr) (fd : Z).

Lemma committed_flags_keep_connected f new :
  Z.land (committed_flags f new) CO_FL_CONNECTED = Z.land f CO_FL_CONNECTED.
Proof.
  unfold committed_flags. apply Z.bits_inj'. intros i Hi.
  pose proof (f_equal (fun z => Z.testbit z i) Hcurr) as Hd.
  cbv beta in Hd. rewrite Z.land_spec, Z.bits_0 in Hd.
  rewrite !Z.land_spec, Z.lor_spec, !Z.land_spec, testbit_uint32, Z.lnot_spec
    by assumption.
  destruct (Z.ltb_spec i 32) as [Hlt|Hge].
  - destruct (Z.testbit f i), (Z.testbit new i), (Z.testbit CURR_MASK i),
      (Z.testbit CO_FL_CONNECTED i); simpl in *; congruence.
  - rewrite (uint32_high_bits _ i Hrange Hge).
    now rewrite !andb_false_r.
Qed.

Lemma set_fd_ev_connected fd e m :
  connected c (set_fd_ev fd e m) = connected c m.
Proof. reflexivity. Qed.

Lemma conn_cond_update_polling_connected p m :
  connected c (final (conn_cond_update_polling p m)) = connected c m.
Proof.
  unfold connected, flag_set.
  destruct (Nat.eq_dec c p) as [<-|Hne].
  - now rewrite conn_cond_update_polling_flags, committed_flags_keep_connected.
  - now rewrite conn_cond_update_polling_other.
Qed.

Lemma raise_keeps_set (f b : Z) :
  flag_set f CO_FL_CONNECTED = true ->
  flag_set (Z.lor f b) CO_FL_CONNECTED = true.
Proof.
  unfold flag_set. intros H. apply negb_true_iff in H.
  apply Z.eqb_neq in H. apply negb_true_iff. apply Z.eqb_neq.
  rewrite Z.land_lor_distr_l. intros H0.
  apply Z.lor_eq_0_iff in H0. destruct H0 as [H0 _]. contradiction.
Qed.

Lemma raise_disjoint (f b : Z) :
  Z.land b CO_FL_CONNECTED = 0 ->
  flag_set (Z.lor f b) CO_FL_CONNECTED = flag_set f CO_FL_CONNECTED.
Proof.
  intros Hb. unfold flag_set.
  now rewrite Z.land_lor_distr_l, Hb, Z.lor_0_r.
Qed.

Lemma set_conn_flags_connected p f m :
  connected c (set_conn_flags p f m)
  = if Nat.eqb c p then flag_set f CO_FL_CONNECTED else connected c m.
Proof.
  unfold connected, conn_flags, set_conn_flags. simpl.
  now destruct (Nat.eqb c p).
Qed.

Lemma notified_connected p m : connected c (notified p m) = connected c m.
Proof.
  unfold notified. destruct (flag_set (conn_flags m p) CO_FL_NOTIFY_SI);
    [|reflexivity].
  destruct Hkeep as (_ & _ & _ & _ & _ & _ & _ & Hn). apply Hn.
Qed.

Lemma established_keeps_set p m :
  connected c m = true -> connected c (established p m) = true.
Proof.
  intros Hc. unfold established.
  destruct (flag_set (conn_flags m p) ESTABLISHED_MASK); cbn [negb];
    [exact Hc|].
  rewrite set_conn_flags_connected.
  destruct (Nat.eqb_spec c p) as [<-|_]; [|exact Hc].
  now apply raise_keeps_set.
Qed.

Lemma established_rises p m :
  connected c m = false -> connected c (established p m) = true ->
  p = c /\ flag_set (conn_flags m c) ESTABLISHED_MASK = false.
Proof.
  intros Hc. unfold established.
  destruct (flag_set (conn_flags m p) ESTABLISHED_MASK) eqn:Hest;
    cbn [negb]; [congruence|].
  rewrite set_conn_flags_connected.
  destruct (Nat.eqb_spec c p) as [<-|_]; [|congruence].
  intros _. now split.
Qed.

(** The [leave] label never clears CONNECTED. *)
Lemma leave_keeps_connected p fd m :
  connected c m = true -> connected c (final (leave p fd m)) = true.
Proof.
  intros Hc.
  destruct (Z.eq_dec (Z.land (conn_flags m p) ERROR_INIT_SESS) ERROR_INIT_SESS)
    as [Hboth|Hnot].
  - rewrite (leave_abort p fd m Hboth). unfold final. cbn [fst snd].
    destruct Hkeep as (_ & _ & _ & Hs & _). rewrite Hs.
    unfold error_latched. rewrite set_conn_flags_connected.
    destruct (Nat.eqb_spec c p) as [<-|_]; [|exact Hc].
    now apply raise_keeps_set.
  - rewrite (leave_normal p fd m Hnot). cbv zeta. unfold final at 1.
    cbn [fst snd]. rewrite conn_cond_update_polling_connected.
    unfold events_removed. rewrite set_fd_ev_connected.
    apply established_keeps_set. now rewrite notified_connected.
Qed.

(** The [leave] label sets CONNECTED on line 108 only. *)
Lemma leave_sets_connected p fd m :
  Z.land CO_FL_ERROR CO_FL_CONNECTED = 0 ->
  connected c m = false -> connected c (final (leave p fd m)) = true ->
  p = c /\
  Z.land (conn_flags m c) ERROR_INIT_SESS <> ERROR_INIT_SESS /\
  flag_set (conn_flags (notified c m) c) ESTABLISHED_MASK = false.
Proof.
  intros Herr Hc.
  destruct (Z.eq_dec (Z.land (conn_flags m p) ERROR_INIT_SESS) ERROR_INIT_SESS)
    as [Hboth|Hnot].
  - rewrite (leave_abort p fd m Hboth). unfold final. cbn [fst snd].
    destruct Hkeep as (_ & _ & _ & Hs & _). rewrite Hs.
    unfold error_latched. rewrite set_conn_flags_connected.
    destruct (Nat.eqb_spec c p) as [<-|_]; [|congruence].
    rewrite (raise_disjoint _ _ Herr). unfold connected in Hc. congruence.
  - rewrite (leave_normal p fd m Hnot). cbv zeta. unfold final at 1.
    cbn [fst snd]. rewrite conn_cond_update_polling_connected.
    unfold events_removed. rewrite set_fd_ev_connected.
    intros Hrise. apply established_rises in Hrise;
      [|now rewrite notified_connected].
    destruct Hrise as [-> Hest]. now repeat split.
Qed.

Lemma handshake_body_connected p m :
  connected c (final (handshake_body p m)) = connected c m.
Proof.
  destruct Hkeep as (Hr & Hs & _).
  destruct (flag_set (conn_flags m p) CO_FL_ERROR) eqn:He.
  - now rewrite handshake_body_error.
  - rewrite (handshake_body_run p m He). cbv zeta.
    repeat match goal with
           | |- context [if ?b then _ else _] => destruct b
           end; unfold final; cbn [fst snd]; rewrite ?Hs, ?Hr; reflexivity.
Qed.

Lemma handshake_loop_connected fuel : forall p m x m' t,
  handshake_loop fuel p m = Some (x, m', t) ->
  connected c m' = connected c m.
Proof.
  induction fuel as [|n IH]; intros p m x m' t H; [discriminate|].
  cbn [handshake_loop] in H.
  destruct (flag_set (conn_flags m p) CO_FL_HANDSHAKE).
  - pose proof (handshake_body_connected p m) as Hb.
    destruct (handshake_body p m) as [[b m1] t1].
    unfold final in Hb. cbn [fst snd] in Hb.
    destruct b.
    + destruct (handshake_loop n p m1) as [[[x2 m2] t2]|] eqn:Hl;
        [|discriminate].
      inversion H; subst. rewrite <- Hb. eapply IH. exact Hl.
    + inversion H; subst. exact Hb.
  - inversion H; subst. reflexivity.
Qed.

Lemma data_phase_connected p fd m :
  connected c (final (data_phase p fd m)) = connected c m.
Proof.
  destruct Hkeep as (_ & _ & _ & _ & Hrecv & Hsend & Hprobe & _).
  assert (H1 : connected c (received p fd m) = connected c m).
  { unfold received. destruct (flag_set _ _); [apply Hrecv | reflexivity]. }
  assert (H2 : connected c (sent p fd (received p fd m)) = connected c m).
  { unfold sent. destruct (flag_set _ _); [now rewrite Hsend | exact H1]. }
  rewrite data_phase_run. cbv zeta.
  repeat match goal with
         | |- context [if ?b then (_, _, _) else _] => destruct b
         end; unfold final; cbn [fst snd]; rewrite ?Hprobe; assumption.
Qed.

Lemma after_handshake_connected p fd m :
  connected c (final (after_handshake p fd m)) = connected c m.
Proof.
  destruct Hkeep as (_ & _ & Hstop & Hsess & _).
  rewrite after_handshake_run. cbv zeta.
  set (ms := if negb (flag_set (conn_flags m p) CO_FL_POLL_SOCK)
             then __conn_sock_stop_both p m else m).
  assert (H1 : connected c ms = connected c m).
  { unfold ms. destruct (negb _); [apply Hstop | reflexivity]. }
  destruct (flag_set (conn_flags ms p) CO_FL_INIT_SESS); cbn [andb].
  - destruct (fst (conn_session_complete p CO_FL_INIT_SESS ms) <? 0).
    + unfold final. cbn [fst snd]. now rewrite Hsess.
    + unfold after, final at 1. cbn [fst snd].
      now rewrite data_phase_connected, Hsess.
  - unfold after, final at 1. cbn [fst snd].
    now rewrite data_phase_connected.
Qed.

(** A run from [process_handshake] ends at line 61, CONNECTED untouched,
    or in the [leave] label, entered with CONNECTED untouched. *)
Lemma process_handshake_connected fuel : forall p fd m r,
  process_handshake fuel p fd m = Some r ->
  connected c (final r) = connected c m \/
  exists ml, connected c ml = connected c m /\
             final r = final (leave p fd ml).
Proof.
  induction fuel as [|n IH]; intros p fd m r H; [discriminate|].
  cbn [process_handshake] in H.
  destruct (handshake_loop (S n) p m) as [[[x m1] t1]|] eqn:Hl;
    [|discriminate].
  apply handshake_loop_connected in Hl.
  destruct x.
  - pose proof (after_handshake_connected p fd m1) as Ha.
    destruct (after_handshake p fd m1) as [[x m2] t2].
    unfold final in Ha. cbn [fst snd] in Ha.
    destruct x.
    + inversion H; subst r. left. unfold final. cbn [fst snd]. congruence.
    + inversion H; subst r. right. exists m2. split; [congruence|].
      reflexivity.
    + destruct (process_handshake n p fd m2) as [r2|] eqn:Hp;
        [|discriminate].
      inversion H; subst r.
      destruct (IH _ _ _ _ Hp) as [Hsame|[ml [Hml Hfin]]].
      * left. unfold after, final at 1. cbn [fst snd]. congruence.
      * right. exists ml. split; [congruence|]. exact Hfin.
  - inversion H; subst r. right. exists m1. split; [exact Hl|].
    reflexivity.
Qed.

Lemma conn_fd_handler_keeps_connected fuel fd m r :
  conn_fd_handler fuel fd m = Some r ->
  connected c m = true -> connected c (final r) = true.
Proof.
  unfold conn_fd_handler. intros H Hc.
  destruct (owner (fdtab m fd)) as [p|].
  - destruct (process_handshake_connected _ _ _ _ _ H)
      as [Hsame|[ml [Hml Hfin]]].
    + congruence.
    + rewrite Hfin. apply leave_keeps_connected. congruence.
  - inversion H; subst r. exact Hc.
Qed.

Lemma rising_edges_after_set (l : list (mem X)) :
  Forall (fun m => connected c m = true) l ->
  rising_edges true (map (connected c) l) = O.
Proof.
  induction 1 as [|m l Hm _ IH]; [reflexivity|].
  cbn [map rising_edges negb andb]. rewrite Hm. exact IH.
Qed.

Lemma run_cycles_connected fuel fd : forall edges m hist,
  run_cycles fuel fd edges m = Some hist ->
  (connected c m = true -> Forall (fun m' => connected c m' = true) hist) /\
  (rising_edges (connected c m) (map (connected c) hist) <= 1)%nat.
Proof.
  induction edges as [|e es IH]; intros m hist H.
  - inversion H; subst. split; [constructor | cbn; lia].
  - cbn [run_cycles] in H.
    destruct (readiness_cycle fuel fd e m) as [r|] eqn:Hr; [|discriminate].
    destruct (run_cycles fuel fd es (final r)) as [h|] eqn:Hh;
      [|discriminate].
    inversion H; subst hist. destruct (IH _ _ Hh) as [IH1 IH2].
    assert (Hmono : connected c m = true -> connected c (final r) = true).
    { intros Hc. unfold readiness_cycle in Hr.
      eapply conn_fd_handler_keeps_connected; [exact Hr|].
      now rewrite set_fd_ev_connected. }
    split.
    + intros Hc. constructor; auto.
    + cbn [map rising_edges].
      destruct (connected c m) eqn:Hc.
      * rewrite (Hmono eq_refl) in *. cbn [negb andb].
        rewrite (rising_edges_after_set h (IH1 eq_refl)). lia.
      * destruct (connected c (final r)) eqn:Hc'; cbn [negb andb].
        -- rewrite (rising_edges_after_set h (IH1 eq_refl)). lia.
        -- lia.
Qed.
End ConnectedFacts.

Section ConnectedClaim.
Context {K : Constants} {X : Type} {E : Externals X}.
Implicit Types (m : mem X) (fd : Z).

End ConnectedClaim.

(** ** Fuel

    A run that ends with some fuel ends the same way with more. *)

Section Fuel.
Context {K : Constants} {X : Type} {E : Externals X}.
Implicit Types (m : mem X) (c : conn_ptr) (fd : Z).

Lemma handshake_loop_more_fuel fuel : forall c m r,
  handshake_loop fuel c m = Some r -> handshake_loop (S fuel) c m = Some r.
Proof.
  induction fuel as [|n IH]; intros c m r H; [discriminate|].
  cbn [handshake_loop] in H.
  change (handshake_loop (S (S n)) c m) with
    (if flag_set (conn_flags m c) CO_FL_HANDSHAKE then
       let '(b, m1, t1) := handshake_body c m in
       match b with
       | body_leave => Some (loop_leave, m1, t1)
       | body_continue =>
           match handshake_loop (S n) c m1 with
           | None => None
           | Some (x, m2, t2) => Some (x, m2, t1 ++ t2)
           end
       end
     else Some (loop_done, m, [])).
  destruct (flag_set (conn_flags m c) CO_FL_HANDSHAKE); [|exact H].
  destruct (handshake_body c m) as [[b m1] t1].
  destruct b; [|exact H].
  destruct (handshake_loop n c m1) as [r1|] eqn:Hl; [|discriminate].
  now rewrite (IH _ _ _ Hl).
Qed.

Lemma process_handshake_more_fuel fuel : forall c fd m r,
  process_handshake fuel c fd m = Some r ->
  process_handshake (S fuel) c fd m = Some r.
Proof.
  induction fuel as [|n IH]; intros c fd m r H; [discriminate|].
  cbn [process_handshake] in H.
  change (process_handshake (S (S n)) c fd m) with
    (match handshake_loop (S (S n)) c m with
     | None => None
     | Some (loop_leave, m1, t1) => Some (after t1 (leave c fd m1))
     | Some (loop_done, m1, t1) =>
         let '(x, m2, t2) := after_handshake c fd m1 in
         match x with
         | exit_return => Some (0, m2, t1 ++ t2)
         | exit_leave => Some (after (t1 ++ t2) (leave c fd m2))
         | exit_handshake =>
             option_map (after (t1 ++ t2)) (process_handshake (S n) c fd m2)
         end
     end).
  destruct (handshake_loop (S n) c m) as [[[x m1] t1]|] eqn:Hl;
    [|discriminate].
  rewrite (handshake_loop_more_fuel _ _ _ _ Hl).
  destruct x; [|exact H].
  destruct (after_handshake c fd m1) as [[x m2] t2].
  destruct x; [exact H | exact H |].
  destruct (process_handshake n c fd m2) as [r2|] eqn:Hp; [|discriminate].
  now rewrite (IH _ _ _ _ Hp).
Qed.

(** With HANDSHAKE clear on entry and not raised again by the callbacks,
    one unit of fuel is enough: the handler returns. *)
Lemma process_handshake_returns c fd m :
  flag_set (conn_flags m c) CO_FL_HANDSHAKE = false ->
  value (after_handshake c fd m) <> exit_handshake ->
  exists r, process_handshake 1 c fd m = Some r.
Proof.
  intros Hh Hx. cbn [process_handshake handshake_loop]. rewrite Hh.
  destruct (after_handshake c fd m) as [[x m2] t2].
  unfold value in Hx. cbn [fst] in Hx.
  destruct x; [eexists; reflexivity | eexists; reflexivity | contradiction].
Qed.
End Fuel.

(** ** The model run on concrete inputs *)

(** Interest-edge minimality: from (RD_ENA, RD_POL) = 10, asking for 11 and
    no send interest issues one poll_recv and commits RD_POL. *)
Example reconcile_want_to_poll :
  let r := conn_set_polling (K:=sample_constants) O 0x300000
             (sample_mem 0x100000 0) in
  calls r = [fd_poll_recv 7] /\ conn_flags (final r) O = 0x300000.
Proof. split; reflexivity. Qed.

(** Fresh incoming connection with a PROXY header to parse, bytes there. *)
Example cycle_accept_proxy :
  let r := conn_fd_handler (K:=sample_constants) (E:=quiet_externals) 2 7
             (sample_mem 0x100880 0x1) in
  option_map calls r =
    Some [call_conn_recv_proxy O 0x80; call_conn_sock_stop_both O;
          call_conn_session_complete O 0x800; call_app_cb_recv O;
          fd_stop_recv 7] /\
  option_map (fun r => conn_flags (final r) O) r = Some 0x2 /\
  option_map (fun r => fd_ev (final r) 7) r = Some 0.
Proof. repeat split; reflexivity. Qed.

(** Outgoing connection, writable edge: the probe confirms the connection. *)
Example cycle_connect_probe :
  let r := conn_fd_handler (K:=sample_constants) (E:=quiet_externals) 1 7
             (sample_mem 0x400004 0x4) in
  option_map calls r =
    Some [call_app_cb_send O; call_tcp_connect_probe O; fd_stop_send 7] /\
  option_map (fun r => conn_flags (final r) O) r = Some 0x2.
Proof. split; reflexivity. Qed.

(** A loop that never ends: a pending handshake kind no sub-handler of the
    loop serves, here with [CO_FL_HANDSHAKE] also holding bit 0x40. *)
Example handshake_loop_may_spin :
  handshake_loop (K:=sample_constants) (E:=quiet_externals) 50 O
    (sample_mem 0x20 0) <> None /\
  forall fuel,
    let K' : Constants := {|
      CO_FL_ERROR := 0x1; CO_FL_CONNECTED := 0x2; CO_FL_WAIT_L4_CONN := 0x4;
      CO_FL_WAIT_L6_CONN := 0x8; CO_FL_NOTIFY_SI := 0x10;
      CO_FL_SI_SEND_PROXY := 0x20; CO_FL_ACCEPT_PROXY := 0x80;
      CO_FL_HANDSHAKE := 0xE0; CO_FL_INIT_SESS := 0x800;
      CO_FL_POLL_SOCK := 0xEC; CO_FL_CURR_RD_ENA := 0x100000;
      CO_FL_CURR_RD_POL := 0x200000; CO_FL_CURR_WR_ENA := 0x400000;
      CO_FL_CURR_WR_POL := 0x800000; FD_POLL_IN := 0x1; FD_POLL_OUT := 0x4;
      FD_POLL_ERR := 0x8; FD_POLL_HUP := 0x10 |} in
    handshake_loop (K:=K') (E:=quiet_externals) fuel O (sample_mem 0x40 0)
    = None.
Proof.
  split; [discriminate|].
  intros fuel K'. induction fuel as [|n IH]; [reflexivity|].
  cbn [handshake_loop].
  change (flag_set (conn_flags (sample_mem 0x40 0) O) CO_FL_HANDSHAKE)
    with true.
  cbv iota.
  change (handshake_body O (sample_mem 0x40 0))
    with (body_continue, sample_mem 0x40 0, @nil call).
  cbv iota beta. now rewrite IH.
Qed.

(** ** The theorems at concrete inputs *)

Lemma clear_flags_connected {K : Constants} {X : Type}
      (c p : conn_ptr) (mask : Z) (m : mem X) :
  Z.land (uint32 (Z.lnot mask)) CO_FL_CONNECTED = CO_FL_CONNECTED ->
  connected c (clear_flags p mask m) = connected c m.
Proof.
  intros Hmask. unfold clear_flags. rewrite set_conn_flags_connected.
  destruct (Nat.eqb_spec c p) as [<-|_]; [|reflexivity].
  unfold connected, flag_set. now rewrite <- Z.land_assoc, Hmask.
Qed.

Lemma quiet_externals_keep_connected (c : conn_ptr) :
  externals_keep_connected (K:=sample_constants) (E:=quiet_externals) c.
Proof.
  unfold externals_keep_connected.
  repeat split; intros p m; try reflexivity;
    cbn [conn_recv_proxy conn_si_send_proxy conn_session_complete
         tcp_connect_probe quiet_externals snd];
    now apply (clear_flags_connected (K:=sample_constants)).
Qed.

Lemma conn_set_polling_issues_spec_calls_witness :
  single_bit 0x100000 = true /\ single_bit 0x200000 = true /\
  single_bit 0x400000 = true /\ single_bit 0x800000 = true /\
  calls (conn_set_polling (K:=sample_constants) O 0x300000
           (sample_mem 0x100000 0))
  = spec_recv_calls 7 (spec_interest_edge true false true true)
    ++ spec_send_calls 7 (spec_interest_edge false false false false).
Proof.
  repeat (split; [reflexivity|]).
  exact (conn_set_polling_issues_spec_calls (K:=sample_constants) O 0x300000
           (sample_mem 0x100000 0) eq_refl eq_refl eq_refl eq_refl).
Defined.

Lemma conn_set_polling_commits_curr_bits_witness :
  is_uint32 0x100012 /\
  let f' := conn_flags (final (conn_set_polling (K:=sample_constants) O
                                 0x600000 (sample_mem 0x100012 0))) O in
  Z.land f' 0x100000 = 0 /\ Z.land f' 0x200000 = 0x200000 /\
  Z.land f' 0x400000 = 0x400000 /\ Z.land f' 0x800000 = 0 /\
  (forall i, 0 <= i -> Z.testbit 0xF00000 i = false ->
             Z.testbit f' i = Z.testbit 0x100012 i).
Proof.
  assert (Hr : is_uint32 0x100012) by (split; [discriminate | reflexivity]).
  split; [exact Hr|].
  exact (conn_set_polling_commits_curr_bits (K:=sample_constants) O 0x600000
           (sample_mem 0x100012 0) Hr).
Defined.

Lemma conn_set_polling_idempotent_witness :
  Z.land 0x100000 0xF00000 = Z.land 0x100012 0xF00000 /\
  calls (conn_set_polling (K:=sample_constants) O 0x100000
           (sample_mem 0x100012 0)) = [].
Proof.
  split; [reflexivity|].
  exact (proj1 (conn_set_polling_idempotent (K:=sample_constants) O 0x100000
                  (sample_mem 0x100012 0)) eq_refl).
Defined.

Lemma conn_fd_handler_unowned_witness :
  owner (fdtab (sample_mem 0x100880 0x1) 3) = None /\
  conn_fd_handler (K:=sample_constants) (E:=quiet_externals) 0 3
    (sample_mem 0x100880 0x1)
  = Some (0, sample_mem 0x100880 0x1, []).
Proof.
  split; [reflexivity|].
  exact (conn_fd_handler_unowned (K:=sample_constants) (E:=quiet_externals)
           0 3 (sample_mem 0x100880 0x1) eq_refl).
Defined.

Lemma leave_embryonic_abort_witness :
  single_bit 0x1 = true /\ single_bit 0x800 = true /\
  flag_set 0x801 0x1 && flag_set 0x801 0x800 = true /\
  leave (K:=sample_constants) (E:=quiet_externals) O 7 (sample_mem 0x801 0x1)
  = (0, snd (conn_session_complete (Externals:=quiet_externals) O 0x800
               (error_latched (K:=sample_constants) O (sample_mem 0x801 0x1))),
     [call_conn_session_complete O 0x800]).
Proof.
  repeat (split; [reflexivity|]).
  exact (proj1 (proj1 (leave_embryonic_abort (K:=sample_constants)
                         (E:=quiet_externals) O 7 (sample_mem 0x801 0x1)
                         eq_refl eq_refl) eq_refl)).
Defined.

Lemma conn_fd_handler_clears_events_witness :
  let m := sample_mem 0x100800 0x1 in
  owner (fdtab m 7) = Some O /\
  flag_set (conn_flags m O) 0x800 = true /\
  fst (conn_session_complete (Externals:=failing_session_externals) O 0x800 m)
  < 0 /\
  conn_fd_handler (K:=sample_constants) (E:=failing_session_externals) 1 7 m
  = Some (0,
          snd (conn_session_complete (Externals:=failing_session_externals)
                 O 0x800 m),
          [call_conn_sock_stop_both O; call_conn_session_complete O 0x800]).
Proof.
  cbv zeta. split; [reflexivity|]. split; [reflexivity|].
  split; [reflexivity|].
  pose proof (conn_fd_handler_clears_events_unless_session_dropped
                (K:=sample_constants) (E:=failing_session_externals) 1 7
                (sample_mem 0x100800 0x1) O _ eq_refl eq_refl)
    as (_ & _ & _ & _ & Hfail).
  exact (Hfail O (sample_mem 0x100800 0x1) [] eq_refl eq_refl eq_refl).
Defined.

(** C2, refuted as stated: with a failing session constructor the handler
    returns on line 61 and POLL_IN is still in the slot. *)
Lemma conn_fd_handler_keeps_events_when_session_fails :
  ~ (forall (K : Constants) (X : Type) (E : Externals X)
            (fuel : nat) (fd : Z) (m : mem X) (c : conn_ptr) r,
        owner (fdtab m fd) = Some c ->
        conn_fd_handler fuel fd m = Some r ->
        Z.land (fd_ev (final r) fd) ALL_EVENTS = 0).
Proof.
  intros Hall.
  pose proof (Hall sample_constants unit failing_session_externals 1%nat 7
                (sample_mem 0x100800 0x1) O _ eq_refl eq_refl) as H.
  vm_compute in H. discriminate H.
Qed.

Lemma data_phase_order_witness :
  let m := sample_mem 0x400004 0x4 in
  data_phase (K:=sample_constants) (E:=quiet_externals) O 7 m
  = (exit_leave,
     snd (tcp_connect_probe (Externals:=quiet_externals) O m),
     [call_app_cb_send O; call_tcp_connect_probe O]).
Proof.
  pose proof (data_phase_order (K:=sample_constants) (E:=quiet_externals)
                O 7 (sample_mem 0x400004 0x4)) as H.
  cbv zeta in H. destruct H as (_ & _ & _ & H & _).
  destruct (H eq_refl eq_refl) as (_ & _ & _ & Hprobe & _).
  exact (Hprobe eq_refl eq_refl eq_refl).
Defined.


Lemma handshake_body_error_seen_late_witness :
  let m := sample_mem 0xA0 0x1 in
  let m1 := raise_flags O 0x1 m in
  let m2 := clear_flags O 0x20 m1 in
  (flag_set (conn_flags m O) 0x1 = false /\
   flag_set (conn_flags m1 O) 0x1 = true /\
   flag_set (conn_flags m1 O) 0x20 = true) /\
  handshake_body (K:=sample_constants) (E:=late_error_externals) O m
  = (body_continue, m2,
     [call_conn_recv_proxy O 0x80; call_conn_si_send_proxy O 0x20]) /\
  handshake_body (K:=sample_constants) (E:=late_error_externals) O m2
  = (body_leave, m2, []) /\
  handshake_loop (K:=sample_constants) (E:=late_error_externals) 2 O m
  = Some (loop_leave, m2,
          [call_conn_recv_proxy O 0x80; call_conn_si_send_proxy O 0x20]).
Proof.
  cbv zeta. split; [repeat split; reflexivity|].
  assert (Hdone : 1 <> 0) by discriminate.
  pose proof (handshake_body_error_seen_late (K:=sample_constants)
                (E:=late_error_externals) O (sample_mem 0xA0 0x1)
                1 (raise_flags O 0x1 (sample_mem 0xA0 0x1))
                1 (clear_flags O 0x20 (raise_flags O 0x1 (sample_mem 0xA0 0x1)))
                eq_refl eq_refl eq_refl eq_refl
                Hdone
                eq_refl eq_refl eq_refl) as [Hbody Hnext].
  split; [exact Hbody|].
  destruct (Hnext Hdone eq_refl eq_refl) as [Hleave Hloop].
  split; [exact Hleave | exact (Hloop O)].
Defined.



(** ** Sequences of reconciliations *)

Section ReconcilerSequences.
Context {K : Constants} {X : Type}.
Implicit Types (m : mem X) (c : conn_ptr).

Lemma conn_set_polling_seq_cons c new more m :
  conn_set_polling_seq c (new :: more) m =
    (tt, final (conn_set_polling_seq c more (final (conn_set_polling c new m))),
     calls (conn_set_polling c new m)
     ++ calls (conn_set_polling_seq c more (final (conn_set_polling c new m)))).
Proof.
  cbn [conn_set_polling_seq]. unfold bind.
  destruct (conn_set_polling c new m) as [[u m1] t1].
  unfold final, calls. cbn [fst snd].
  destruct (conn_set_polling_seq c more m1) as [[[] m2] t2]. reflexivity.
Qed.

Lemma conn_set_polling_seq_final c new more m :
  final (conn_set_polling_seq c (new :: more) m)
  = final (conn_set_polling_seq c more (final (conn_set_polling c new m))).
Proof. now rewrite conn_set_polling_seq_cons. Qed.

Lemma conn_set_polling_seq_calls c new more m :
  calls (conn_set_polling_seq c (new :: more) m)
  = calls (conn_set_polling c new m)
    ++ calls (conn_set_polling_seq c more (final (conn_set_polling c new m))).
Proof. now rewrite conn_set_polling_seq_cons. Qed.

Lemma conn_set_polling_enable_bits c new m :
  flag_set (conn_flags (final (conn_set_polling c new m)) c) CO_FL_CURR_RD_ENA
  = flag_set new CO_FL_CURR_RD_ENA /\
  flag_set (conn_flags (final (conn_set_polling c new m)) c) CO_FL_CURR_WR_ENA
  = flag_set new CO_FL_CURR_WR_ENA.
Proof.
  rewrite conn_set_polling_flags. unfold flag_set.
  pose proof (committed_flags_curr (conn_flags m c) new) as Hc.
  split.
  - rewrite (land_within_mask _ _ _ rd_ena_in_mask), Hc.
    now rewrite <- (land_within_mask _ _ _ rd_ena_in_mask).
  - rewrite (land_within_mask _ _ _ wr_ena_in_mask), Hc.
    now rewrite <- (land_within_mask _ _ _ wr_ena_in_mask).
Qed.

(** One reconciliation, replayed on the event facility. *)
Lemma conn_set_polling_replay c new m :
  single_bit CO_FL_CURR_RD_ENA = true ->
  single_bit CO_FL_CURR_RD_POL = true ->
  single_bit CO_FL_CURR_WR_ENA = true ->
  single_bit CO_FL_CURR_WR_POL = true ->
  let fd := t_sock_fd (conns m c) in
  let t := calls (conn_set_polling c new m) in
  fold_left (recv_enabled_after fd) t
            (flag_set (conn_flags m c) CO_FL_CURR_RD_ENA)
  = flag_set new CO_FL_CURR_RD_ENA /\
  fold_left (send_enabled_after fd) t
            (flag_set (conn_flags m c) CO_FL_CURR_WR_ENA)
  = flag_set new CO_FL_CURR_WR_ENA.
Proof.
  intros Hre Hrp Hwe Hwp fd t. subst t.
  rewrite conn_set_polling_calls_code. fold fd.
  unfold RD_PAIR, WR_PAIR. rewrite !pair_test by assumption.
  destruct (flag_set (conn_flags m c) CO_FL_CURR_RD_ENA),
    (flag_set (conn_flags m c) CO_FL_CURR_RD_POL),
    (flag_set new CO_FL_CURR_RD_ENA), (flag_set new CO_FL_CURR_RD_POL),
    (flag_set (conn_flags m c) CO_FL_CURR_WR_ENA),
    (flag_set (conn_flags m c) CO_FL_CURR_WR_POL),
    (flag_set new CO_FL_CURR_WR_ENA), (flag_set new CO_FL_CURR_WR_POL);
    cbn [negb andb app fold_left recv_enabled_after send_enabled_after];
    rewrite ?Z.eqb_refl; split; reflexivity.
Qed.

(** Over any sequence of reconciliations of one connection, the enable
    bits committed in the flags are what the event facility was told:
    replaying the calls issued, from the enable bits at the start, gives
    CURR_RD_ENA and CURR_WR_ENA as they are at the end. *)
Theorem conn_set_polling_seq_mirrors_enable_bits c news : forall m,
  single_bit CO_FL_CURR_RD_ENA = true ->
  single_bit CO_FL_CURR_RD_POL = true ->
  single_bit CO_FL_CURR_WR_ENA = true ->
  single_bit CO_FL_CURR_WR_POL = true ->
  let fd := t_sock_fd (conns m c) in
  let r := conn_set_polling_seq c news m in
  flag_set (conn_flags (final r) c) CO_FL_CURR_RD_ENA
  = fold_left (recv_enabled_after fd) (calls r)
              (flag_set (conn_flags m c) CO_FL_CURR_RD_ENA) /\
  flag_set (conn_flags (final r) c) CO_FL_CURR_WR_ENA
  = fold_left (send_enabled_after fd) (calls r)
              (flag_set (conn_flags m c) CO_FL_CURR_WR_ENA).
Proof.
  induction news as [|new more IH]; intros m Hre Hrp Hwe Hwp; cbv zeta.
  - split; reflexivity.
  - rewrite conn_set_polling_seq_final, conn_set_polling_seq_calls.
    rewrite !fold_left_app.
    destruct (conn_set_polling_replay c new m Hre Hrp Hwe Hwp) as [Hr Hw].
    cbv zeta in Hr, Hw. rewrite Hr, Hw.
    destruct (conn_set_polling_enable_bits c new m) as [Hr1 Hw1].
    destruct (conn_set_polling_frame c new m) as (_ & _ & _ & Hfd).
    specialize (IH (final (conn_set_polling c new m)) Hre Hrp Hwe Hwp).
    cbv zeta in IH. rewrite Hr1, Hw1, Hfd in IH. exact IH.
Qed.

Lemma committed_flags_twice f x y :
  committed_flags (committed_flags f x) y = committed_flags f y.
Proof.
  unfold committed_flags. apply Z.bits_inj'. intros i Hi.
  repeat rewrite ?Z.land_spec, ?Z.lor_spec, ?testbit_uint32, ?Z.lnot_spec
    by assumption.
  destruct (Z.testbit f i), (Z.testbit x i), (Z.testbit y i),
    (Z.testbit CURR_MASK i), (i <? 32); reflexivity.
Qed.

Lemma conn_set_polling_seq_flags c news : forall m,
  conn_flags (final (conn_set_polling_seq c news m)) c
  = fold_left committed_flags news (conn_flags m c).
Proof.
  induction news as [|new more IH]; intros m; [reflexivity|].
  rewrite conn_set_polling_seq_final, IH, conn_set_polling_flags.
  reflexivity.
Qed.

Lemma fold_committed_flags_last news : forall f new,
  committed_flags (fold_left committed_flags news f) new = committed_flags f new.
Proof.
  induction news as [|x more IH]; intros f new; [reflexivity|].
  cbn [fold_left]. rewrite IH. apply committed_flags_twice.
Qed.

(** The last request wins: after any sequence of reconciliations the flags
    of the connection are those a single call with the last value asked
    for would have left. *)
Theorem conn_set_polling_seq_last_wins c news new m :
  conn_flags (final (conn_set_polling_seq c (news ++ [new]) m)) c
  = conn_flags (final (conn_set_polling c new m)) c.
Proof.
  rewrite conn_set_polling_seq_flags, conn_set_polling_flags, fold_left_app.
  cbn [fold_left]. apply fold_committed_flags_last.
Qed.

Lemma uint32_of_bits (z : Z) :
  0 <= z -> (forall i, 32 <= i -> Z.testbit z i = false) -> is_uint32 z.
Proof.
  intros Hz Hhigh. unfold is_uint32. split; [exact Hz|].
  assert (Hmod : z mod 2 ^ 32 = z).
  { apply Z.bits_inj'. intros i Hi. rewrite Z.testbit_mod_pow2 by lia.
    destruct (Z.ltb_spec i 32) as [_|Hge]; [reflexivity|].
    now rewrite (Hhigh i Hge). }
  rewrite <- Hmod. apply Z.mod_pos_bound. reflexivity.
Qed.

Lemma committed_flags_uint32 f new :
  is_uint32 f -> is_uint32 new -> is_uint32 (committed_flags f new).
Proof.
  intros Hf Hn. unfold committed_flags. apply uint32_of_bits.
  - apply Z.lor_nonneg. split; apply Z.land_nonneg; left;
      [apply Hf | apply Hn].
  - intros i Hi. rewrite Z.lor_spec, !Z.land_spec.
    rewrite (uint32_high_bits f i Hf Hi), (uint32_high_bits new i Hn Hi).
    reflexivity.
Qed.

End ReconcilerSequences.

(** ** Termination under the contract of the sub-handlers *)

Section Termination.
Context {K : Constants} {X : Type} {E : Externals X}.
Implicit Types (m : mem X) (c : conn_ptr) (fd : Z).

Lemma flag_set_lor (f a b : Z) :
  flag_set f (Z.lor a b) = flag_set f a || flag_set f b.
Proof.
  unfold flag_set. rewrite Z.land_lor_distr_r.
  destruct (Z.eqb_spec (Z.land f a) 0) as [Ha|Ha];
    destruct (Z.eqb_spec (Z.land f b) 0) as [Hb|Hb]; cbn [negb orb];
    destruct (Z.eqb_spec (Z.lor (Z.land f a) (Z.land f b)) 0) as [H|H];
    try reflexivity; exfalso.
  - apply H. apply Z.lor_eq_0_iff. now split.
  - apply Z.lor_eq_0_iff in H. destruct H. contradiction.
  - apply Z.lor_eq_0_iff in H. destruct H. contradiction.
  - apply Z.lor_eq_0_iff in H. destruct H. contradiction.
Qed.

Lemma handshake_body_at_most_two_calls c m :
  (length (calls (handshake_body c m)) <= 2)%nat.
Proof.
  destruct (flag_set (conn_flags m c) CO_FL_ERROR) eqn:He.
  - rewrite handshake_body_error by assumption. cbn. lia.
  - rewrite (handshake_body_run c m He). cbv zeta.
    repeat match goal with
           | |- context [if ?b then _ else _] => destruct b
           end; cbn; lia.
Qed.

(** A body that went through leaves no handshake kind pending. *)
Lemma handshake_body_continue_clears c m :
  handshake_contract c ->
  CO_FL_HANDSHAKE = Z.lor CO_FL_ACCEPT_PROXY CO_FL_SI_SEND_PROXY ->
  value (handshake_body c m) = body_continue ->
  flag_set (conn_flags (final (handshake_body c m)) c) CO_FL_HANDSHAKE = false.
Proof.
  intros (Hrecv & Hsend & Hkeep) Hmask.
  destruct (flag_set (conn_flags m c) CO_FL_ERROR) eqn:He.
  - rewrite handshake_body_error by assumption. discriminate.
  - rewrite (handshake_body_run c m He). cbv zeta.
    rewrite Hmask.
    set (m1 := if flag_set (conn_flags m c) CO_FL_ACCEPT_PROXY
               then snd (conn_recv_proxy c CO_FL_ACCEPT_PROXY m) else m).
    assert (Hap : flag_set (conn_flags m c) CO_FL_ACCEPT_PROXY
                  && (fst (conn_recv_proxy c CO_FL_ACCEPT_PROXY m) =? 0) = false
                  -> flag_set (conn_flags m1 c) CO_FL_ACCEPT_PROXY = false).
    { unfold m1. destruct (flag_set (conn_flags m c) CO_FL_ACCEPT_PROXY) eqn:Ha;
        cbn [andb]; [|now rewrite Ha].
      intros Hr. apply Z.eqb_neq in Hr. now apply Hrecv. }
    destruct (flag_set (conn_flags m c) CO_FL_ACCEPT_PROXY
              && (fst (conn_recv_proxy c CO_FL_ACCEPT_PROXY m) =? 0)) eqn:Hfail.
    + unfold value. cbn [fst]. discriminate.
    + specialize (Hap eq_refl).
      destruct (flag_set (conn_flags m1 c) CO_FL_SI_SEND_PROXY) eqn:Hsp;
        cbn [andb].
      * destruct (Z.eqb_spec
                    (fst (conn_si_send_proxy c CO_FL_SI_SEND_PROXY m1)) 0)
          as [Hz|Hnz]; unfold value, final; cbn [fst snd]; [discriminate|].
        intros _. rewrite flag_set_lor, (Hkeep m1 Hap), (Hsend m1 Hnz).
        reflexivity.
      * unfold value, final. cbn [fst snd]. intros _.
        now rewrite flag_set_lor, Hap, Hsp.
Qed.

Lemma handshake_loop_fuel_add n : forall fuel c m r,
  handshake_loop fuel c m = Some r -> handshake_loop (n + fuel) c m = Some r.
Proof.
  induction n as [|n IH]; intros fuel c m r H; [exact H|].
  cbn [Nat.add]. apply handshake_loop_more_fuel. now apply IH.
Qed.

Lemma process_handshake_fuel_add n : forall fuel c fd m r,
  process_handshake fuel c fd m = Some r ->
  process_handshake (n + fuel) c fd m = Some r.
Proof.
  induction n as [|n IH]; intros fuel c fd m r H; [exact H|].
  cbn [Nat.add]. apply process_handshake_more_fuel. now apply IH.
Qed.

(** Under the contract two tests of the loop condition are enough. *)
Lemma handshake_loop_two c m :
  handshake_contract c ->
  CO_FL_HANDSHAKE = Z.lor CO_FL_ACCEPT_PROXY CO_FL_SI_SEND_PROXY ->
  exists x m' t,
    handshake_loop 2 c m = Some (x, m', t) /\ (length t <= 2)%nat.
Proof.
  intros Hc Hmask. cbn [handshake_loop].
  destruct (flag_set (conn_flags m c) CO_FL_HANDSHAKE).
  - pose proof (handshake_body_continue_clears c m Hc Hmask) as Hclear.
    pose proof (handshake_body_at_most_two_calls c m) as Hlen.
    destruct (handshake_body c m) as [[b m1] t1].
    unfold value, final, calls in *. cbn [fst snd] in *.
    destruct b.
    + rewrite (Hclear eq_refl). exists loop_done, m1, (t1 ++ []).
      split; [reflexivity|]. now rewrite app_nil_r.
    + exists loop_leave, m1, t1. now split.
  - exists loop_done, m, []. split; [reflexivity | cbn; lia].
Qed.


(** With no handshake pending and collaborators that start none, the
    stage after the loop does not ask for the loop again. *)
Lemma after_handshake_no_restart c fd m :
  no_handshake_restart c ->
  flag_set (conn_flags m c) CO_FL_HANDSHAKE = false ->
  value (after_handshake c fd m) <> exit_handshake.
Proof.
  intros (Hstop & Hsess & Hrecv & Hsend) Hh.
  rewrite after_handshake_run. cbv zeta.
  set (ms := if negb (flag_set (conn_flags m c) CO_FL_POLL_SOCK)
             then __conn_sock_stop_both c m else m).
  assert (Hms : flag_set (conn_flags ms c) CO_FL_HANDSHAKE = false).
  { unfold ms. destruct (negb _); [now apply Hstop | exact Hh]. }
  set (md := if flag_set (conn_flags ms c) CO_FL_INIT_SESS
             then snd (conn_session_complete c CO_FL_INIT_SESS ms) else ms).
  assert (Hmd : flag_set (conn_flags md c) CO_FL_HANDSHAKE = false).
  { unfold md. destruct (flag_set (conn_flags ms c) CO_FL_INIT_SESS);
      [now apply (Hsess ms) | exact Hms]. }
  assert (Hdata : value (data_phase c fd md) <> exit_handshake).
  { rewrite data_phase_run. cbv zeta.
    assert (H1 : flag_set (conn_flags (received c fd md) c) CO_FL_HANDSHAKE
                 = false).
    { unfold received. destruct (flag_set _ RECV_EVENTS);
        [now apply Hrecv | exact Hmd]. }
    assert (H2 : flag_set (conn_flags (sent c fd (received c fd md)) c)
                          CO_FL_HANDSHAKE = false).
    { unfold sent. destruct (flag_set _ SEND_EVENTS);
        [now apply Hsend | exact H1]. }
    rewrite H1, H2.
    repeat match goal with
           | |- context [if ?b then (_, _, _) else _] => destruct b
           end; unfold value; cbn [fst]; discriminate. }
  destruct (flag_set (conn_flags ms c) CO_FL_INIT_SESS && _).
  - unfold value. cbn [fst]. discriminate.
  - unfold after, value at 1. cbn [fst]. exact Hdata.
Qed.

End Termination.

(** ** The calls of a cycle, in order *)

Section CycleCalls.
Context {K : Constants} {X : Type} {E : Externals X}.
Implicit Types (m : mem X) (c : conn_ptr) (fd : Z).

Lemma conn_set_polling_calls_on_sock_fd c new m :
  Forall (on_sock_fd c m) (calls (conn_set_polling c new m)) /\
  (length (calls (conn_set_polling c new m)) <= 2)%nat.
Proof.
  rewrite conn_set_polling_calls_code. cbv zeta.
  repeat match goal with
         | |- context [if ?b then _ else _] => destruct b
         end; cbn [app length];
    (split; [repeat constructor; split; reflexivity | lia]).
Qed.

Lemma conn_cond_update_polling_unfold c m :
  conn_cond_update_polling c m
  = conn_set_polling c (desired_polling (conn_flags m c)) m.
Proof.
  unfold conn_cond_update_polling, bind, read_flags.
  destruct (conn_set_polling c (desired_polling (conn_flags m c)) m)
    as [[u m1] t1].
  reflexivity.
Qed.

Lemma data_phase_io_calls c fd m :
  Forall is_io_call (calls (data_phase c fd m)).
Proof.
  rewrite data_phase_run. cbv zeta.
  repeat match goal with
         | |- context [if ?b then _ else _] => destruct b
         end; unfold calls; cbn [snd app]; repeat constructor.
Qed.

Lemma after_handshake_io_calls c fd m :
  Forall is_io_call (calls (after_handshake c fd m)).
Proof.
  rewrite after_handshake_run. cbv zeta.
  destruct (flag_set (conn_flags _ c) CO_FL_INIT_SESS && _).
  - unfold calls. cbn [snd].
    repeat match goal with
           | |- context [if ?b then _ else _] => destruct b
           end; cbn [app]; repeat constructor.
  - unfold after, calls at 1. cbn [snd]. apply Forall_app. split.
    + repeat match goal with
             | |- context [if ?b then _ else _] => destruct b
             end; cbn [app]; repeat constructor.
    + apply data_phase_io_calls.
Qed.

Lemma fd_calls_last_after c t0 (r : Z * mem X * list call) :
  Forall is_io_call t0 ->
  fd_calls_last c r -> fd_calls_last c (after t0 r).
Proof.
  intros H0 (t & n & u & Hcalls & Ht & Hn & Hu & Hlen).
  exists (t0 ++ t), n, u. unfold after, calls at 1, final. cbn [fst snd].
  rewrite Hcalls, app_assoc.
  split; [reflexivity|]. split; [now apply Forall_app|]. now repeat split.
Qed.

Lemma leave_fd_calls_last c fd m : fd_calls_last c (leave c fd m).
Proof.
  destruct (Z.eq_dec (Z.land (conn_flags m c) ERROR_INIT_SESS) ERROR_INIT_SESS)
    as [Hboth|Hnot].
  - rewrite (leave_abort c fd m Hboth).
    exists [call_conn_session_complete c CO_FL_INIT_SESS], [], [].
    split; [reflexivity|]. split; [repeat constructor|].
    split; [now left|]. split; [constructor | cbn; lia].
  - rewrite (leave_normal c fd m Hnot). cbv zeta.
    set (m3 := events_removed fd (established c (notified c m))).
    rewrite conn_cond_update_polling_unfold.
    set (new := desired_polling (conn_flags m3 c)).
    exists [],
           (if flag_set (conn_flags m c) CO_FL_NOTIFY_SI
            then [call_conn_notify_si c] else []),
           (calls (conn_set_polling c new m3)).
    destruct (conn_set_polling_calls_on_sock_fd c new m3) as [Hon Hlen].
    destruct (conn_set_polling_frame c new m3) as (_ & _ & _ & Hsock).
    split; [reflexivity|]. split; [constructor|].
    split; [|split; [|exact Hlen]].
    + destruct (flag_set (conn_flags m c) CO_FL_NOTIFY_SI); auto.
    + eapply Forall_impl; [|exact Hon].
      intros e [Hfd Hk]. split; [exact Hfd|].
      unfold final at 1. cbn [fst snd]. cbv zeta in Hsock.
      now rewrite Hsock.
Qed.

Lemma handshake_io_calls (t : list call) :
  Forall (fun e => is_handshake_call e = true) t -> Forall is_io_call t.
Proof.
  intros H. eapply Forall_impl; [|exact H].
  intros e He. destruct e; try discriminate; split; reflexivity.
Qed.

Lemma process_handshake_fd_calls_last fuel : forall c fd m r,
  process_handshake fuel c fd m = Some r -> fd_calls_last c r.
Proof.
  induction fuel as [|n IH]; intros c fd m r H; [discriminate|].
  cbn [process_handshake] in H.
  destruct (handshake_loop (S n) c m) as [[[x m1] t1]|] eqn:Hl;
    [|discriminate].
  apply handshake_loop_calls, handshake_io_calls in Hl.
  destruct x.
  - pose proof (after_handshake_io_calls c fd m1) as Ha.
    destruct (after_handshake c fd m1) as [[x m2] t2].
    unfold calls in Ha. cbn [snd] in Ha.
    assert (H12 : Forall is_io_call (t1 ++ t2)) by now apply Forall_app.
    destruct x.
    + inversion H; subst r. exists (t1 ++ t2), [], [].
      unfold calls. cbn [snd length app]. rewrite app_nil_r.
      split; [reflexivity|]. split; [exact H12|]. split; [now left|].
      split; [constructor | lia].
    + inversion H; subst r. apply fd_calls_last_after; [exact H12|].
      apply leave_fd_calls_last.
    + destruct (process_handshake n c fd m2) as [r2|] eqn:Hp;
        [|discriminate].
      inversion H; subst r. apply fd_calls_last_after; [exact H12|].
      eapply IH. exact Hp.
  - inversion H; subst r. apply fd_calls_last_after; [exact Hl|].
    apply leave_fd_calls_last.
Qed.

(** The calls of a cycle that returns, in order: first the calls to the
    sub-handlers, the session shim and the I/O callbacks; then the upstream
    notification, at most once; then the handler's own calls to the event
    facility, at most two, made on the descriptor recorded in the
    connection, [t.sock.fd], whatever descriptor the handler was called
    on. *)
Theorem conn_fd_handler_polls_last fuel fd m c r :
  owner (fdtab m fd) = Some c ->
  conn_fd_handler fuel fd m = Some r ->
  exists t n u,
    calls r = t ++ n ++ u /\
    Forall (fun e => is_fd_call e = false /\ is_notify_call e = false) t /\
    (n = [] \/ n = [call_conn_notify_si c]) /\
    Forall (fun e => is_fd_call e = true /\
                     call_fd e = Some (t_sock_fd (conns (final r) c))) u /\
    (length u <= 2)%nat.
Proof.
  intros Hown H. unfold conn_fd_handler in H. rewrite Hown in H.
  exact (process_handshake_fd_calls_last _ _ _ _ _ H).
Qed.
End CycleCalls.

(** ** What the [leave] label leaves behind *)

Section LeaveEffects.
Context {K : Constants} {X : Type} {E : Externals X}.
Implicit Types (m : mem X) (c : conn_ptr) (fd : Z).

Lemma raise_sets (f b : Z) : 0 < b -> flag_set (Z.lor f b) b = true.
Proof.
  intros Hb. unfold flag_set.
  assert (Habs : Z.land (Z.lor f b) b = b).
  { apply Z.bits_inj'. intros i _. rewrite Z.land_spec, Z.lor_spec.
    destruct (Z.testbit f i), (Z.testbit b i); reflexivity. }
  rewrite Habs. destruct (Z.eqb_spec b 0); [lia | reflexivity].
Qed.

Lemma established_fdtab c m : fdtab (established c m) = fdtab m.
Proof. unfold established. now destruct (negb _). Qed.

Lemma leave_normal_fdtab c fd m :
  Z.land (conn_flags m c) ERROR_INIT_SESS <> ERROR_INIT_SESS ->
  fdtab (final (leave c fd m))
  = fdtab (events_removed fd (established c (notified c m))).
Proof.
  intros Hnot. rewrite (leave_normal c fd m Hnot). cbv zeta.
  unfold final at 1. cbn [fst snd]. apply conn_cond_update_polling_frame.
Qed.

(** The established edge.  On the path of lines 103-115 the handler
    returns with CONNECTED set exactly when the bit was already set after
    the upstream notification or none of WAIT_L4_CONN, WAIT_L6_CONN,
    CONNECTED was: the reconciler that runs afterwards does not undo it. *)
Theorem leave_marks_established c fd m :
  single_bit CO_FL_CONNECTED = true ->
  is_uint32 CO_FL_CONNECTED ->
  Z.land CO_FL_CONNECTED CURR_MASK = 0 ->
  Z.land (conn_flags m c) ERROR_INIT_SESS <> ERROR_INIT_SESS ->
  connected c (final (leave c fd m))
  = connected c (notified c m)
    || negb (flag_set (conn_flags (notified c m) c) ESTABLISHED_MASK).
Proof.
  intros Hbit Hrange Hcurr Hnot.
  rewrite (leave_normal c fd m Hnot). cbv zeta. unfold final at 1.
  cbn [fst snd].
  rewrite (conn_cond_update_polling_connected c Hrange Hcurr).
  unfold events_removed. rewrite set_fd_ev_connected.
  unfold established.
  destruct (flag_set (conn_flags (notified c m) c) ESTABLISHED_MASK);
    cbn [negb]; [now rewrite orb_false_r|].
  rewrite set_conn_flags_connected, Nat.eqb_refl, orb_true_r.
  apply raise_sets. unfold single_bit in Hbit.
  apply andb_true_iff in Hbit. destruct Hbit as [Hpos _].
  now apply Z.ltb_lt.
Qed.

(** On the path of lines 103-115 the handler takes the four event bits,
    and only them, out of the slot of its descriptor: every other bit of
    the slot, the owner of the slot and the slots of the other descriptors
    are as the upstream notification left them. *)
Theorem leave_touches_four_event_bits_only c fd m :
  Z.land (conn_flags m c) ERROR_INIT_SESS <> ERROR_INIT_SESS ->
  let before := fdtab (notified c m) in
  let after_leave := fdtab (final (leave c fd m)) in
  ev (after_leave fd) = Z.land (ev (before fd)) (Z.lnot ALL_EVENTS) /\
  (forall i, 0 <= i -> Z.testbit ALL_EVENTS i = false ->
             Z.testbit (ev (after_leave fd)) i = Z.testbit (ev (before fd)) i) /\
  owner (after_leave fd) = owner (before fd) /\
  (forall k, k <> fd -> after_leave k = before k).
Proof.
  intros Hnot. cbv zeta.
  rewrite (leave_normal_fdtab c fd m Hnot).
  unfold events_removed, set_fd_ev, fd_ev. cbn [fdtab].
  rewrite Z.eqb_refl, !established_fdtab. cbn [ev owner].
  split; [reflexivity|]. split; [|split; [reflexivity|]].
  - intros i Hi Hout. rewrite Z.land_spec, Z.lnot_spec, Hout by assumption.
    apply andb_true_r.
  - intros k Hk. destruct (Z.eqb_spec k fd); [contradiction | reflexivity].
Qed.
End LeaveEffects.

(** ** Flags the core never clears *)

Section FlagKept.
Context {K : Constants} {X : Type} {E : Externals X}.
Variables (b : Z) (c : conn_ptr).
Hypothesis Hrange : is_uint32 b.
Hypothesis Hcurr : Z.land b CURR_MASK = 0.
Hypothesis Hext : externals_keep_flag_set b c.
Implicit Types (m : mem X) (p : conn_ptr) (fd : Z).

Local Abbreviation raised m := (flag_set (conn_flags m c) b = true).

Lemma committed_flags_keep_flag f new :
  Z.land (committed_flags f new) b = Z.land f b.
Proof.
  unfold committed_flags. apply Z.bits_inj'. intros i Hi.
  pose proof (f_equal (fun z => Z.testbit z i) Hcurr) as Hd.
  cbv beta in Hd. rewrite Z.land_spec, Z.bits_0 in Hd.
  rewrite !Z.land_spec, Z.lor_spec, !Z.land_spec, testbit_uint32, Z.lnot_spec
    by assumption.
  destruct (Z.ltb_spec i 32) as [Hlt|Hge].
  - destruct (Z.testbit f i), (Z.testbit new i), (Z.testbit CURR_MASK i),
      (Z.testbit b i); simpl in *; congruence.
  - rewrite (uint32_high_bits _ i Hrange Hge).
    now rewrite !andb_false_r.
Qed.

Lemma raise_keeps_flag (f x : Z) :
  flag_set f b = true -> flag_set (Z.lor f x) b = true.
Proof.
  unfold flag_set. intros H. apply negb_true_iff in H.
  apply Z.eqb_neq in H. apply negb_true_iff. apply Z.eqb_neq.
  rewrite Z.land_lor_distr_l. intros H0.
  apply Z.lor_eq_0_iff in H0. destruct H0 as [H0 _]. contradiction.
Qed.

Lemma raise_conn_flags_keeps_flag p x m :
  raised m ->
  raised (set_conn_flags p (Z.lor (conn_flags m p) x) m).
Proof.
  intros Hm. destruct (Nat.eq_dec c p) as [<-|Hne].
  - rewrite conn_flags_set. now apply raise_keeps_flag.
  - now rewrite conn_flags_set_other.
Qed.

Lemma conn_cond_update_polling_keeps_flag p m :
  raised m -> raised (final (conn_cond_update_polling p m)).
Proof.
  intros Hm. destruct (Nat.eq_dec c p) as [<-|Hne].
  - rewrite conn_cond_update_polling_flags. unfold flag_set.
    rewrite committed_flags_keep_flag. exact Hm.
  - now rewrite conn_cond_update_polling_other.
Qed.

Lemma leave_keeps_flag p fd m : raised m -> raised (final (leave p fd m)).
Proof.
  intros Hm. destruct Hext as (_ & _ & _ & Hsess & _ & _ & _ & Hnotify).
  destruct (Z.eq_dec (Z.land (conn_flags m p) ERROR_INIT_SESS) ERROR_INIT_SESS)
    as [Hboth|Hnot].
  - rewrite (leave_abort p fd m Hboth). unfold final. cbn [fst snd].
    apply (Hsess p). unfold error_latched.
    now apply raise_conn_flags_keeps_flag.
  - rewrite (leave_normal p fd m Hnot). cbv zeta. unfold final at 1.
    cbn [fst snd]. apply conn_cond_update_polling_keeps_flag.
    unfold events_removed.
    change (raised (established p (notified p m))).
    assert (Hn : raised (notified p m)).
    { unfold notified. destruct (flag_set (conn_flags m p) CO_FL_NOTIFY_SI);
        [now apply (Hnotify p) | exact Hm]. }
    unfold established. destruct (negb _); [|exact Hn].
    now apply raise_conn_flags_keeps_flag.
Qed.

Lemma handshake_body_keeps_flag p m :
  raised m -> raised (final (handshake_body p m)).
Proof.
  intros Hm. destruct Hext as (Hr & Hs & _).
  destruct (flag_set (conn_flags m p) CO_FL_ERROR) eqn:He.
  - now rewrite handshake_body_error.
  - rewrite (handshake_body_run p m He). cbv zeta.
    assert (H1 : raised (if flag_set (conn_flags m p) CO_FL_ACCEPT_PROXY
                         then snd (conn_recv_proxy p CO_FL_ACCEPT_PROXY m)
                         else m)).
    { destruct (flag_set (conn_flags m p) CO_FL_ACCEPT_PROXY);
        [now apply (Hr p) | exact Hm]. }
    destruct (flag_set (conn_flags m p) CO_FL_ACCEPT_PROXY && _);
      unfold final; cbn [fst snd]; [exact H1|].
    destruct (flag_set (conn_flags _ p) CO_FL_SI_SEND_PROXY);
      [now apply (Hs p) | exact H1].
Qed.

Lemma handshake_loop_keeps_flag fuel : forall p m x m' t,
  handshake_loop fuel p m = Some (x, m', t) -> raised m -> raised m'.
Proof.
  induction fuel as [|n IH]; intros p m x m' t H Hm; [discriminate|].
  cbn [handshake_loop] in H.
  destruct (flag_set (conn_flags m p) CO_FL_HANDSHAKE).
  - pose proof (handshake_body_keeps_flag p m Hm) as Hb.
    destruct (handshake_body p m) as [[y m1] t1].
    unfold final in Hb. cbn [fst snd] in Hb.
    destruct y.
    + destruct (handshake_loop n p m1) as [[[x2 m2] t2]|] eqn:Hl;
        [|discriminate].
      inversion H; subst. eapply IH; eassumption.
    + inversion H; subst. exact Hb.
  - inversion H; subst. exact Hm.
Qed.

Lemma data_phase_keeps_flag p fd m :
  raised m -> raised (final (data_phase p fd m)).
Proof.
  intros Hm. destruct Hext as (_ & _ & _ & _ & Hrecv & Hsend & Hprobe & _).
  assert (H1 : raised (received p fd m)).
  { unfold received. destruct (flag_set _ RECV_EVENTS);
      [now apply (Hrecv p) | exact Hm]. }
  assert (H2 : raised (sent p fd (received p fd m))).
  { unfold sent. destruct (flag_set _ SEND_EVENTS);
      [now apply (Hsend p) | exact H1]. }
  rewrite data_phase_run. cbv zeta.
  repeat match goal with
         | |- context [if ?x then (_, _, _) else _] => destruct x
         end; unfold final; cbn [fst snd]; try assumption.
  now apply (Hprobe p).
Qed.

Lemma after_handshake_keeps_flag p fd m :
  raised m -> raised (final (after_handshake p fd m)).
Proof.
  intros Hm. destruct Hext as (_ & _ & Hstop & Hsess & _).
  rewrite after_handshake_run. cbv zeta.
  set (ms := if negb (flag_set (conn_flags m p) CO_FL_POLL_SOCK)
             then __conn_sock_stop_both p m else m).
  assert (H1 : raised ms).
  { unfold ms. destruct (negb _); [now apply (Hstop p) | exact Hm]. }
  assert (H2 : raised (snd (conn_session_complete p CO_FL_INIT_SESS ms)))
    by now apply (Hsess p).
  destruct (flag_set (conn_flags ms p) CO_FL_INIT_SESS); cbn [andb].
  - destruct (fst (conn_session_complete p CO_FL_INIT_SESS ms) <? 0).
    + unfold final. cbn [fst snd]. exact H2.
    + unfold after, final at 1. cbn [fst snd].
      now apply data_phase_keeps_flag.
  - unfold after, final at 1. cbn [fst snd].
    now apply data_phase_keeps_flag.
Qed.

Lemma process_handshake_keeps_flag fuel : forall p fd m r,
  process_handshake fuel p fd m = Some r -> raised m -> raised (final r).
Proof.
  induction fuel as [|n IH]; intros p fd m r H Hm; [discriminate|].
  cbn [process_handshake] in H.
  destruct (handshake_loop (S n) p m) as [[[x m1] t1]|] eqn:Hl;
    [|discriminate].
  pose proof (handshake_loop_keeps_flag _ _ _ _ _ _ Hl Hm) as H1.
  destruct x.
  - pose proof (after_handshake_keeps_flag p fd m1 H1) as Ha.
    destruct (after_handshake p fd m1) as [[x m2] t2].
    unfold final in Ha. cbn [fst snd] in Ha.
    destruct x.
    + inversion H; subst r. exact Ha.
    + inversion H; subst r. unfold after, final at 1. cbn [fst snd].
      now apply leave_keeps_flag.
    + destruct (process_handshake n p fd m2) as [r2|] eqn:Hp;
        [|discriminate].
      inversion H; subst r. unfold after, final at 1. cbn [fst snd].
      eapply IH; eassumption.
  - inversion H; subst r. unfold after, final at 1. cbn [fst snd].
    now apply leave_keeps_flag.
Qed.

Lemma conn_fd_handler_keeps_flag fuel fd m r :
  conn_fd_handler fuel fd m = Some r -> raised m -> raised (final r).
Proof.
  unfold conn_fd_handler. intros H Hm.
  destruct (owner (fdtab m fd)) as [p|].
  - eapply process_handshake_keeps_flag; eassumption.
  - inversion H; subst r. exact Hm.
Qed.

Lemma run_cycles_keep_flag fuel fd : forall edges m hist,
  run_cycles fuel fd edges m = Some hist -> raised m ->
  Forall (fun m' => raised m') hist.
Proof.
  induction edges as [|e es IH]; intros m hist H Hm.
  - inversion H; subst. constructor.
  - cbn [run_cycles] in H.
    destruct (readiness_cycle fuel fd e m) as [r|] eqn:Hr; [|discriminate].
    destruct (run_cycles fuel fd es (final r)) as [h|] eqn:Hh;
      [|discriminate].
    inversion H; subst hist.
    assert (Hfin : raised (final r)).
    { unfold readiness_cycle in Hr.
      eapply conn_fd_handler_keeps_flag; [exact Hr | exact Hm]. }
    constructor; [exact Hfin|]. eapply IH; eassumption.
Qed.
End FlagKept.

Section FlagKeptClaim.
Context {K : Constants} {X : Type} {E : Externals X}.

(** The core never clears a flag outside the four current-interest bits:
    its writes to the flags are the two [|=] of lines 98 and 108 and the
    commit of the reconciler.  So a flag [b] that fits the flags word, is
    none of the current-interest bits and is not cleared by the functions
    the core calls, such as ERROR, stays set through a cycle of the handler
    and through any sequence of cycles. *)
Theorem flag_outside_curr_never_cleared (b : Z) (c : conn_ptr) :
  is_uint32 b ->
  Z.land b CURR_MASK = 0 ->
  externals_keep_flag_set b c ->
  (forall fuel fd (m : mem X) r,
      conn_fd_handler fuel fd m = Some r ->
      flag_set (conn_flags m c) b = true ->
      flag_set (conn_flags (final r) c) b = true) /\
  (forall fuel fd edges (m : mem X) hist,
      run_cycles fuel fd edges m = Some hist ->
      flag_set (conn_flags m c) b = true ->
      Forall (fun m' => flag_set (conn_flags m' c) b = true) hist).
Proof.
  intros Hrange Hcurr Hext. split.
  - intros fuel fd m r. now apply conn_fd_handler_keeps_flag.
  - intros fuel fd edges m hist. now apply run_cycles_keep_flag.
Qed.
End FlagKeptClaim.

(** ** The enable bits across a cycle *)

Section InterestMirror.
Context {K : Constants} {X : Type} {E : Externals X}.
Variables (bit : Z) (step : Z -> bool -> call -> bool) (c : conn_ptr).
Hypothesis Hquiet :
  forall k s e, is_fd_call e = false -> step k s e = s.
Hypothesis Hreplay :
  forall new (m : mem X),
    fold_left (step (t_sock_fd (conns m c))) (calls (conn_set_polling c new m))
              (flag_set (conn_flags m c) bit)
    = flag_set new bit.
Hypothesis Hcommit :
  forall new (m : mem X),
    flag_set (conn_flags (final (conn_set_polling c new m)) c) bit
    = flag_set new bit.
Hypothesis Hext : externals_keep_interest bit c.
Hypothesis Herr : Z.land CO_FL_ERROR bit = 0.
Hypothesis Hconn : Z.land CO_FL_CONNECTED bit = 0.
Implicit Types (m : mem X) (fd : Z).

Lemma replay_no_fd_calls k s (t : list call) :
  Forall (fun e => is_fd_call e = false) t -> fold_left (step k) t s = s.
Proof.
  induction 1 as [|e t He _ IH]; [reflexivity|].
  cbn [fold_left]. now rewrite (Hquiet k s e He).
Qed.

Lemma replay_io_calls k s (t : list call) :
  Forall is_io_call t -> fold_left (step k) t s = s.
Proof.
  intros H. apply replay_no_fd_calls.
  eapply Forall_impl; [|exact H]. now intros e [He _].
Qed.

Lemma interest_kept_refl m : interest_kept bit c m m.
Proof. now split. Qed.

Lemma interest_kept_trans m m1 m2 :
  interest_kept bit c m m1 -> interest_kept bit c m1 m2 ->
  interest_kept bit c m m2.
Proof. intros [H1 H2] [H3 H4]. split; congruence. Qed.

Lemma raise_disjoint_keeps x m :
  Z.land x bit = 0 ->
  interest_kept bit c m (set_conn_flags c (Z.lor (conn_flags m c) x) m).
Proof.
  intros Hx. split.
  - rewrite conn_flags_set. unfold flag_set.
    now rewrite Z.land_lor_distr_l, Hx, Z.lor_0_r.
  - apply sock_fd_set.
Qed.

Lemma handshake_body_keeps_interest m :
  interest_kept bit c m (final (handshake_body c m)).
Proof.
  destruct Hext as (Hr & Hs & _).
  destruct (flag_set (conn_flags m c) CO_FL_ERROR) eqn:He.
  - rewrite handshake_body_error by assumption. apply interest_kept_refl.
  - rewrite (handshake_body_run c m He). cbv zeta.
    set (m1 := if flag_set (conn_flags m c) CO_FL_ACCEPT_PROXY
               then snd (conn_recv_proxy c CO_FL_ACCEPT_PROXY m) else m).
    assert (H1 : interest_kept bit c m m1).
    { unfold m1. destruct (flag_set (conn_flags m c) CO_FL_ACCEPT_PROXY);
        [apply Hr | apply interest_kept_refl]. }
    destruct (flag_set (conn_flags m c) CO_FL_ACCEPT_PROXY && _);
      unfold final; cbn [fst snd]; [exact H1|].
    destruct (flag_set (conn_flags m1 c) CO_FL_SI_SEND_PROXY); [|exact H1].
    eapply interest_kept_trans; [exact H1 | apply Hs].
Qed.

Lemma handshake_loop_keeps_interest fuel : forall m x m' t,
  handshake_loop fuel c m = Some (x, m', t) -> interest_kept bit c m m'.
Proof.
  induction fuel as [|n IH]; intros m x m' t H; [discriminate|].
  cbn [handshake_loop] in H.
  destruct (flag_set (conn_flags m c) CO_FL_HANDSHAKE).
  - pose proof (handshake_body_keeps_interest m) as Hb.
    destruct (handshake_body c m) as [[y m1] t1].
    unfold final in Hb. cbn [fst snd] in Hb.
    destruct y.
    + destruct (handshake_loop n c m1) as [[[x2 m2] t2]|] eqn:Hl;
        [|discriminate].
      inversion H; subst.
      eapply interest_kept_trans; [exact Hb | eapply IH; exact Hl].
    + inversion H; subst. exact Hb.
  - inversion H; subst. apply interest_kept_refl.
Qed.

Lemma data_phase_keeps_interest fd m :
  interest_kept bit c m (final (data_phase c fd m)).
Proof.
  destruct Hext as (_ & _ & _ & _ & Hrecv & Hsend & Hprobe & _).
  assert (H1 : interest_kept bit c m (received c fd m)).
  { unfold received. destruct (flag_set _ RECV_EVENTS);
      [apply Hrecv | apply interest_kept_refl]. }
  assert (H2 : interest_kept bit c m (sent c fd (received c fd m))).
  { unfold sent. destruct (flag_set _ SEND_EVENTS); [|exact H1].
    eapply interest_kept_trans; [exact H1 | apply Hsend]. }
  rewrite data_phase_run. cbv zeta.
  repeat match goal with
         | |- context [if ?x then (_, _, _) else _] => destruct x
         end; unfold final; cbn [fst snd]; try assumption.
  eapply interest_kept_trans; [exact H2 | apply Hprobe].
Qed.

Lemma after_handshake_keeps_interest fd m :
  interest_kept bit c m (final (after_handshake c fd m)).
Proof.
  destruct Hext as (_ & _ & Hstop & Hsess & _).
  rewrite after_handshake_run. cbv zeta.
  set (ms := if negb (flag_set (conn_flags m c) CO_FL_POLL_SOCK)
             then __conn_sock_stop_both c m else m).
  assert (H1 : interest_kept bit c m ms).
  { unfold ms. destruct (negb _); [apply Hstop | apply interest_kept_refl]. }
  assert (H2 : interest_kept bit c m
                 (snd (conn_session_complete c CO_FL_INIT_SESS ms))).
  { eapply interest_kept_trans; [exact H1 | apply Hsess]. }
  destruct (flag_set (conn_flags ms c) CO_FL_INIT_SESS); cbn [andb].
  - destruct (fst (conn_session_complete c CO_FL_INIT_SESS ms) <? 0).
    + unfold final. cbn [fst snd]. exact H2.
    + unfold after, final at 1. cbn [fst snd].
      eapply interest_kept_trans; [exact H2|].
      apply data_phase_keeps_interest.
  - unfold after, final at 1. cbn [fst snd].
    eapply interest_kept_trans; [exact H1|].
    apply data_phase_keeps_interest.
Qed.

Lemma mirrored_intro {A} m (v : A) (mf : mem X) (t : list call) :
  flag_set (conn_flags mf c) bit
  = fold_left (step (t_sock_fd (conns m c))) t (flag_set (conn_flags m c) bit) ->
  t_sock_fd (conns mf c) = t_sock_fd (conns m c) ->
  interest_mirrored bit step c m (v, mf, t).
Proof. intros H1 H2. split; assumption. Qed.

(** A stage that made no event-facility call and kept the flag mirrors it. *)
Lemma kept_is_mirrored {A} m (r : A * mem X * list call) :
  Forall is_io_call (calls r) -> interest_kept bit c m (final r) ->
  interest_mirrored bit step c m r.
Proof.
  intros Hio [Hflag Hsock]. split; [|exact Hsock].
  now rewrite replay_io_calls.
Qed.

(** Calls made before, by stages that kept the flag, change nothing. *)
Lemma mirrored_after {A} m m1 t (r : A * mem X * list call) :
  Forall is_io_call t -> interest_kept bit c m m1 ->
  interest_mirrored bit step c m1 r ->
  interest_mirrored bit step c m (after t r).
Proof.
  intros Hio [Hflag Hsock] [Hmir Hfd]. destruct r as [[v mr] tr].
  unfold interest_mirrored, after, value, final, calls in *.
  cbn [fst snd] in *.
  split; [|congruence].
  rewrite fold_left_app, (replay_io_calls _ _ t Hio), <- Hflag, <- Hsock.
  exact Hmir.
Qed.

Lemma leave_mirrors_interest fd m :
  interest_mirrored bit step c m (leave c fd m).
Proof.
  destruct Hext as (_ & _ & _ & Hsess & _ & _ & _ & Hnotify).
  destruct (Z.eq_dec (Z.land (conn_flags m c) ERROR_INIT_SESS) ERROR_INIT_SESS)
    as [Hboth|Hnot].
  - rewrite (leave_abort c fd m Hboth). apply kept_is_mirrored.
    + repeat constructor.
    + unfold final. cbn [fst snd].
      eapply interest_kept_trans; [|apply Hsess].
      unfold error_latched. now apply raise_disjoint_keeps.
  - rewrite (leave_normal c fd m Hnot). cbv zeta.
    set (m3 := events_removed fd (established c (notified c m))).
    assert (H3 : interest_kept bit c m m3).
    { assert (Hn : interest_kept bit c m (notified c m)).
      { unfold notified.
        destruct (flag_set (conn_flags m c) CO_FL_NOTIFY_SI);
          [apply Hnotify | apply interest_kept_refl]. }
      eapply interest_kept_trans; [exact Hn|].
      change (interest_kept bit c (notified c m) (established c (notified c m))).
      unfold established. destruct (negb _); [|apply interest_kept_refl].
      now apply raise_disjoint_keeps. }
    rewrite conn_cond_update_polling_unfold.
    set (new := desired_polling (conn_flags m3 c)).
    destruct H3 as [Hflag Hsock].
    destruct (conn_set_polling_frame c new m3) as (_ & _ & _ & Hfd).
    cbv zeta in Hfd.
    apply mirrored_intro; [|now rewrite Hfd].
    set (tn := if flag_set (conn_flags m c) CO_FL_NOTIFY_SI
               then [call_conn_notify_si c] else []).
    assert (Hio : Forall (fun e => is_fd_call e = false) tn).
    { unfold tn. destruct (flag_set (conn_flags m c) CO_FL_NOTIFY_SI);
        repeat constructor. }
    rewrite fold_left_app, (replay_no_fd_calls _ _ tn Hio).
    rewrite Hcommit, <- Hflag, <- Hsock. symmetry. apply Hreplay.
Qed.

Lemma process_handshake_mirrors_interest fuel : forall fd m r,
  process_handshake fuel c fd m = Some r -> interest_mirrored bit step c m r.
Proof.
  induction fuel as [|n IH]; intros fd m r H; [discriminate|].
  cbn [process_handshake] in H.
  destruct (handshake_loop (S n) c m) as [[[x m1] t1]|] eqn:Hl;
    [|discriminate].
  pose proof (handshake_loop_keeps_interest _ _ _ _ _ Hl) as Hk1.
  apply handshake_loop_calls, handshake_io_calls in Hl.
  destruct x.
  - pose proof (after_handshake_io_calls c fd m1) as Ha.
    pose proof (after_handshake_keeps_interest fd m1) as Hk2.
    destruct (after_handshake c fd m1) as [[x m2] t2].
    unfold calls in Ha. unfold final in Hk2. cbn [fst snd] in Ha, Hk2.
    assert (H12 : Forall is_io_call (t1 ++ t2)) by now apply Forall_app.
    assert (Hk : interest_kept bit c m m2)
      by (eapply interest_kept_trans; eassumption).
    destruct x.
    + inversion H; subst r. now apply kept_is_mirrored.
    + inversion H; subst r.
      eapply mirrored_after; [exact H12 | exact Hk |].
      apply leave_mirrors_interest.
    + destruct (process_handshake n c fd m2) as [r2|] eqn:Hp;
        [|discriminate].
      inversion H; subst r.
      eapply mirrored_after; [exact H12 | exact Hk |].
      eapply IH. exact Hp.
  - inversion H; subst r.
    eapply mirrored_after; [exact Hl | exact Hk1 |].
    apply leave_mirrors_interest.
Qed.
End InterestMirror.

Section InterestMirrorClaim.
Context {K : Constants} {X : Type} {E : Externals X}.

Lemma recv_enabled_after_io k s e :
  is_fd_call e = false -> recv_enabled_after k s e = s.
Proof. destruct e; try discriminate; reflexivity. Qed.

Lemma send_enabled_after_io k s e :
  is_fd_call e = false -> send_enabled_after k s e = s.
Proof. destruct e; try discriminate; reflexivity. Qed.

(** Across a whole cycle the enable bits stay in step with the event
    facility.  When the functions the handler calls leave CURR_RD_ENA,
    CURR_WR_ENA and the descriptor of the connection alone, and ERROR and
    CONNECTED are other bits, the enable bits in the flags after a cycle
    that returns are what replaying the calls of the cycle makes of the
    enable bits before it: every change of an enable bit was told to the
    event facility, and nothing else was. *)
Theorem conn_fd_handler_mirrors_enable_bits fuel fd (m : mem X) c r :
  single_bit CO_FL_CURR_RD_ENA = true ->
  single_bit CO_FL_CURR_RD_POL = true ->
  single_bit CO_FL_CURR_WR_ENA = true ->
  single_bit CO_FL_CURR_WR_POL = true ->
  externals_keep_interest CO_FL_CURR_RD_ENA c ->
  externals_keep_interest CO_FL_CURR_WR_ENA c ->
  Z.land CO_FL_ERROR CO_FL_CURR_RD_ENA = 0 ->
  Z.land CO_FL_ERROR CO_FL_CURR_WR_ENA = 0 ->
  Z.land CO_FL_CONNECTED CO_FL_CURR_RD_ENA = 0 ->
  Z.land CO_FL_CONNECTED CO_FL_CURR_WR_ENA = 0 ->
  owner (fdtab m fd) = Some c ->
  conn_fd_handler fuel fd m = Some r ->
  let sock := t_sock_fd (conns m c) in
  flag_set (conn_flags (final r) c) CO_FL_CURR_RD_ENA
  = fold_left (recv_enabled_after sock) (calls r)
              (flag_set (conn_flags m c) CO_FL_CURR_RD_ENA) /\
  flag_set (conn_flags (final r) c) CO_FL_CURR_WR_ENA
  = fold_left (send_enabled_after sock) (calls r)
              (flag_set (conn_flags m c) CO_FL_CURR_WR_ENA) /\
  t_sock_fd (conns (final r) c) = sock.
Proof.
  intros Hre Hrp Hwe Hwp Hkr Hkw Her Hew Hcr Hcw Hown H sock.
  unfold conn_fd_handler in H. rewrite Hown in H.
  assert (Hr : interest_mirrored CO_FL_CURR_RD_ENA recv_enabled_after c m r).
  { eapply (process_handshake_mirrors_interest CO_FL_CURR_RD_ENA
              recv_enabled_after c recv_enabled_after_io); try eassumption.
    - intros new m0.
      apply (conn_set_polling_replay c new m0 Hre Hrp Hwe Hwp).
    - intros new m0. apply conn_set_polling_enable_bits. }
  assert (Hw : interest_mirrored CO_FL_CURR_WR_ENA send_enabled_after c m r).
  { eapply (process_handshake_mirrors_interest CO_FL_CURR_WR_ENA
              send_enabled_after c send_enabled_after_io); try eassumption.
    - intros new m0.
      apply (conn_set_polling_replay c new m0 Hre Hrp Hwe Hwp).
    - intros new m0. apply conn_set_polling_enable_bits. }
  destruct Hr as [Hr Hsock]. destruct Hw as [Hw _].
  split; [exact Hr|]. split; [exact Hw | exact Hsock].
Qed.
End InterestMirrorClaim.

(** ** The further theorems at concrete inputs *)

Lemma clear_flags_clears {X : Type} (c : conn_ptr) (mask b : Z) (m : mem X) :
  Z.land (uint32 (Z.lnot mask)) b = 0 ->
  flag_set (conn_flags (clear_flags c mask m) c) b = false.
Proof.
  intros H. unfold clear_flags. rewrite conn_flags_set. unfold flag_set.
  now rewrite <- Z.land_assoc, H, Z.land_0_r.
Qed.

Lemma clear_flags_keeps_clear {X : Type} (c p : conn_ptr) (mask b : Z)
      (m : mem X) :
  flag_set (conn_flags m c) b = false ->
  flag_set (conn_flags (clear_flags p mask m) c) b = false.
Proof.
  intros H. unfold clear_flags.
  destruct (Nat.eq_dec c p) as [<-|Hne];
    [|now rewrite conn_flags_set_other].
  rewrite conn_flags_set. unfold flag_set in *.
  apply negb_false_iff in H. apply Z.eqb_eq in H.
  rewrite <- Z.land_assoc, (Z.land_comm _ b), Z.land_assoc, H.
  reflexivity.
Qed.

Lemma clear_flags_keeps_set {X : Type} (c p : conn_ptr) (mask b : Z)
      (m : mem X) :
  Z.land (uint32 (Z.lnot mask)) b = b ->
  flag_set (conn_flags m c) b = true ->
  flag_set (conn_flags (clear_flags p mask m) c) b = true.
Proof.
  intros Hmask H. unfold clear_flags.
  destruct (Nat.eq_dec c p) as [<-|Hne];
    [|now rewrite conn_flags_set_other].
  rewrite conn_flags_set. unfold flag_set in *.
  now rewrite <- Z.land_assoc, Hmask.
Qed.

Lemma quiet_externals_contract (c : conn_ptr) :
  handshake_contract (K:=sample_constants) (E:=quiet_externals) c.
Proof.
  unfold handshake_contract. split; [|split]; intros m H.
  - now apply clear_flags_clears.
  - now apply clear_flags_clears.
  - now apply clear_flags_keeps_clear.
Qed.

Lemma quiet_externals_no_restart (c : conn_ptr) :
  no_handshake_restart (K:=sample_constants) (E:=quiet_externals) c.
Proof.
  unfold no_handshake_restart. repeat split; intros m H; try exact H.
  now apply clear_flags_keeps_clear.
Qed.

Lemma quiet_externals_keep_error (c : conn_ptr) :
  externals_keep_flag_set (K:=sample_constants) (E:=quiet_externals) 0x1 c.
Proof.
  unfold externals_keep_flag_set. repeat split; intros p m H; try exact H;
    now apply clear_flags_keeps_set.
Qed.

Lemma conn_set_polling_seq_mirrors_enable_bits_witness :
  single_bit 0x100000 = true /\ single_bit 0x200000 = true /\
  single_bit 0x400000 = true /\ single_bit 0x800000 = true /\
  let r := conn_set_polling_seq (K:=sample_constants) O
             [0x100000; 0x700000; 0x400000] (sample_mem 0 0) in
  calls r = [fd_want_recv 7; fd_poll_recv 7; fd_want_send 7; fd_stop_recv 7] /\
  flag_set (conn_flags (final r) O) 0x100000
  = fold_left (recv_enabled_after 7) (calls r) (flag_set 0 0x100000) /\
  flag_set (conn_flags (final r) O) 0x400000
  = fold_left (send_enabled_after 7) (calls r) (flag_set 0 0x400000).
Proof.
  do 5 (split; [reflexivity|]).
  exact (conn_set_polling_seq_mirrors_enable_bits (K:=sample_constants) O
           [0x100000; 0x700000; 0x400000] (sample_mem 0 0)
           eq_refl eq_refl eq_refl eq_refl).
Defined.




Lemma conn_fd_handler_polls_last_witness :
  owner (fdtab (sample_mem 0x100890 0x1) 7) = Some O /\
  exists r,
    conn_fd_handler (K:=sample_constants) (E:=quiet_externals) 2 7
      (sample_mem 0x100890 0x1) = Some r /\
    calls r = [call_conn_recv_proxy O 0x80; call_conn_sock_stop_both O;
               call_conn_session_complete O 0x800; call_app_cb_recv O;
               call_conn_notify_si O; fd_stop_recv 7] /\
    exists t n u,
      calls r = t ++ n ++ u /\
      Forall (fun e => is_fd_call e = false /\ is_notify_call e = false) t /\
      (n = [] \/ n = [call_conn_notify_si O]) /\
      Forall (fun e => is_fd_call e = true /\
                       call_fd e = Some (t_sock_fd (conns (final r) O))) u /\
      (length u <= 2)%nat.
Proof.
  split; [reflexivity|]. eexists. split; [reflexivity|].
  split; [reflexivity|].
  exact (conn_fd_handler_polls_last (K:=sample_constants)
           (E:=quiet_externals) 2 7 (sample_mem 0x100890 0x1) O _
           eq_refl eq_refl).
Defined.

Lemma leave_marks_established_witness :
  single_bit 0x2 = true /\ is_uint32 0x2 /\ Z.land 0x2 0xF00000 = 0 /\
  Z.land 0x10 0x801 <> 0x801 /\
  connected (K:=sample_constants) O
    (final (leave (K:=sample_constants) (E:=quiet_externals) O 7
              (sample_mem 0x10 0x1)))
  = true.
Proof.
  assert (Hr : is_uint32 (CO_FL_CONNECTED (Constants:=sample_constants)))
    by (split; [discriminate | reflexivity]).
  assert (Hnot : Z.land 0x10 0x801 <> 0x801) by discriminate.
  split; [reflexivity|]. split; [exact Hr|]. split; [reflexivity|].
  split; [exact Hnot|].
  exact (leave_marks_established (K:=sample_constants) (E:=quiet_externals)
           O 7 (sample_mem 0x10 0x1) eq_refl Hr eq_refl Hnot).
Defined.

Lemma leave_touches_four_event_bits_only_witness :
  Z.land 0x10 0x801 <> 0x801 /\
  let m := sample_mem 0x10 0x23 in
  let after_leave :=
    fdtab (final (leave (K:=sample_constants) (E:=quiet_externals) O 7 m)) in
  ev (after_leave 7) = 0x22 /\
  owner (after_leave 7) = Some O /\
  (forall k, k <> 7 -> after_leave k = fdtab m k).
Proof.
  assert (Hnot : Z.land 0x10 0x801 <> 0x801) by discriminate.
  split; [exact Hnot|].
  pose proof (leave_touches_four_event_bits_only (K:=sample_constants)
                (E:=quiet_externals) O 7 (sample_mem 0x10 0x23) Hnot)
    as (Hev & _ & Hown & Hother).
  split; [exact Hev|]. split; [exact Hown | exact Hother].
Defined.

Lemma flag_outside_curr_never_cleared_witness :
  is_uint32 0x1 /\ Z.land 0x1 0xF00000 = 0 /\
  exists r,
    conn_fd_handler (K:=sample_constants) (E:=quiet_externals) 2 7
      (sample_mem 0x100081 0x1) = Some r /\
    flag_set (conn_flags (final r) O) 0x1 = true.
Proof.
  assert (Hr : is_uint32 0x1) by (split; [discriminate | reflexivity]).
  split; [exact Hr|]. split; [reflexivity|].
  eexists. split; [reflexivity|].
  exact (proj1 (flag_outside_curr_never_cleared (K:=sample_constants)
                  (E:=quiet_externals) 0x1 O Hr eq_refl
                  (quiet_externals_keep_error O))
           2%nat 7 (sample_mem 0x100081 0x1) _ eq_refl eq_refl).
Defined.

Lemma clear_flags_keeps_interest {X : Type} (c p : conn_ptr) (mask bit : Z)
      (m : mem X) :
  Z.land (uint32 (Z.lnot mask)) bit = bit ->
  flag_set (conn_flags (clear_flags p mask m) c) bit
  = flag_set (conn_flags m c) bit /\
  t_sock_fd (conns (clear_flags p mask m) c) = t_sock_fd (conns m c).
Proof.
  intros Hmask. unfold clear_flags. split; [|apply sock_fd_set].
  destruct (Nat.eq_dec c p) as [<-|Hne];
    [|now rewrite conn_flags_set_other].
  rewrite conn_flags_set. unfold flag_set.
  now rewrite <- Z.land_assoc, Hmask.
Qed.

Lemma quiet_externals_keep_interest (bit : Z) (c : conn_ptr) :
  Z.land (uint32 (Z.lnot 0x80)) bit = bit ->
  Z.land (uint32 (Z.lnot 0x20)) bit = bit ->
  Z.land (uint32 (Z.lnot 0x800)) bit = bit ->
  Z.land (uint32 (Z.lnot 0x4)) bit = bit ->
  externals_keep_interest (K:=sample_constants) (E:=quiet_externals) bit c.
Proof.
  intros H1 H2 H3 H4. unfold externals_keep_interest. cbv zeta.
  repeat apply conj; intros m;
    first [ now apply (clear_flags_keeps_interest c c)
          | split; reflexivity ].
Qed.

Lemma conn_fd_handler_mirrors_enable_bits_witness :
  owner (fdtab (sample_mem 0x100890 0x1) 7) = Some O /\
  exists r,
    conn_fd_handler (K:=sample_constants) (E:=quiet_externals) 2 7
      (sample_mem 0x100890 0x1) = Some r /\
    flag_set (conn_flags (final r) O) 0x100000
    = fold_left (recv_enabled_after 7) (calls r) true /\
    flag_set (conn_flags (final r) O) 0x400000
    = fold_left (send_enabled_after 7) (calls r) false /\
    t_sock_fd (conns (final r) O) = 7.
Proof.
  split; [reflexivity|]. eexists. split; [reflexivity|].
  exact (conn_fd_handler_mirrors_enable_bits (K:=sample_constants)
           (E:=quiet_externals) 2 7 (sample_mem 0x100890 0x1) O _
           eq_refl eq_refl eq_refl eq_refl
           (quiet_externals_keep_interest 0x100000 O
              eq_refl eq_refl eq_refl eq_refl)
           (quiet_externals_keep_interest 0x400000 O
              eq_refl eq_refl eq_refl eq_refl)
           eq_refl eq_refl eq_refl eq_refl eq_refl eq_refl).
Defined.
